(** * subtitle-ninja: the caption core, embedded and verified

    A shallow embedding of the three pure components of the repository

    - [workflows/style_config.py]: [StyleConfig], [StylePresets] and the two
      colour conversions,
    - [workflows/process_video.py]: [VideoProcessor.create_word_groups] and
      [VideoProcessor.seconds_to_srt_time],
    - [workflows/ass_renderer.py]: [ASSRenderer],

    followed by the properties of the specification that concern them.

    Conventions of the embedding.
    - A Python [str] is a [string]; the characters that matter here are ASCII.
    - A Python [int] is a [Z].
    - A Python [float] is read as the rational number it holds ([Q]), and
      the operators [//], [%], [*] and [int()] are the exact ones; module
      [Binary64] repeats the float computations with binary64 rounding, for
      running the code on concrete floats.
    - A [dict] used as a map is a [gmap]; a [dict] used as a record is a
      [Record], with an [option] field for every key the code reads with
      [.get(key, default)].
    - An exception is the [None] of an [option] result. *)

From Stdlib Require Import ZArith QArith Qround Lia Lqa.
From Stdlib Require Import Ascii String DecimalString SpecFloat.
From stdpp Require Import base option list strings gmap.

Close Scope Q_scope.
Open Scope Z_scope.

(** ** Python primitives *)

Module Py.

(** The line break of the f-strings and of ["\n".join]. *)
Definition nl : ascii := ascii_of_nat 10.
Definition NL : string := String nl "".

(** [str(n)] and [f"{n}"] for an [int]. *)
Definition str (n : Z) : string := NilZero.string_of_int (Z.to_int n).

Fixpoint zeros (n : nat) : string :=
  match n with
  | O => ""
  | S n' => String "0" (zeros n')
  end.

(** [f"{n:0<width>d}"]: the sign first, then zeros up to [width]. *)
Definition fmt0 (width : nat) (n : Z) : string :=
  let digits := str (Z.abs n) in
  if n <? 0
  then "-" +:+ zeros (width - 1 - String.length digits) +:+ digits
  else zeros (width - String.length digits) +:+ digits.

(** [a // b], [a % b] and [int(a)] on floats, for a divisor [b > 0]
    (every divisor in the code is a positive literal). *)
Definition floordiv (a b : Q) : Q := inject_Z (Qfloor (a / b)).
Definition mod_ (a b : Q) : Q := (a - b * inject_Z (Qfloor (a / b)))%Q.
Definition int (a : Q) : Z := Z.quot (Qnum a) (Z.pos (Qden a)).

(** [s[a:b]], [s.startswith(p)], [sep.join(l)]. *)
Definition slice (a b : nat) (s : string) : string := substring a (b - a) s.
Definition startswith (p s : string) : bool := String.prefix p s.
Definition join (sep : string) (l : list string) : string := String.concat sep l.

(** [l[a:b]] on a list. *)
Definition lslice {A} (a b : nat) (l : list A) : list A := take (b - a) (drop a l).

(** [s.upper()], on ASCII letters; other characters are kept. *)
Definition upper_char (c : ascii) : ascii :=
  let n := nat_of_ascii c in
  if ((97 <=? n)%nat && (n <=? 122)%nat)%bool then ascii_of_nat (n - 32) else c.

Fixpoint upper (s : string) : string :=
  match s with
  | "" => ""
  | String c s' => String (upper_char c) (upper s')
  end.

(** [s.split("\n")]. *)
Fixpoint split_nl (s : string) : list string :=
  match s with
  | "" => [""]
  | String c s' =>
      if Ascii.eqb c nl then "" :: split_nl s'
      else match split_nl s' with
           | l :: ls => String c l :: ls
           | [] => [String c ""]
           end
  end.

End Py.

(** ** Binary64 arithmetic

    The float computations of the code once more, on IEEE 754 binary64
    numbers ([spec_float] at precision 53) and with CPython's algorithms for
    [%] ([float_rem]), [//] ([float_floor_div]) and [int()]. The theorems
    are about the exact model above; this one runs the code on the numbers
    that float literals denote, rounding included. *)

Module Binary64.

Definition prec : Z := 53.
Definition emax : Z := 1024.

Definition add : spec_float → spec_float → spec_float := SFadd prec emax.
Definition sub : spec_float → spec_float → spec_float := SFsub prec emax.
Definition mul : spec_float → spec_float → spec_float := SFmul prec emax.
Definition div : spec_float → spec_float → spec_float := SFdiv prec emax.

(** [m * 2^e], rounded to the nearest double; [float(n)] for an [int]; the
    double that the decimal literal [n/d] denotes. *)
Definition of_scaled (m e : Z) (szero : bool) : spec_float :=
  binary_normalize prec emax m e szero.

Definition of_int (n : Z) : spec_float := of_scaled n 0 false.

Definition literal (q : Q) : spec_float :=
  div (of_int (Qnum q)) (of_int (Z.pos (Qden q))).

(** [int(x)]: truncation towards zero; [None] is the exception for an
    infinity or a NaN. *)
Definition int (x : spec_float) : option Z :=
  match x with
  | S754_zero _ => Some 0
  | S754_finite s m e =>
      Some (cond_Zopp s (if 0 <=? e then Z.pos m * 2 ^ e else Z.pos m / 2 ^ (- e)))
  | _ => None
  end.

(** C's [floor] and [fmod], both exact. *)
Definition floor (x : spec_float) : spec_float :=
  match x with
  | S754_finite s m e =>
      if 0 <=? e then x else of_scaled (cond_Zopp s (Z.pos m) / 2 ^ (- e)) 0 s
  | _ => x
  end.

Definition fmod (x y : spec_float) : spec_float :=
  match x, y with
  | S754_finite sx mx ex, S754_finite _ my ey =>
      let e := Z.min ex ey in
      let r := Z.rem (Z.pos mx * 2 ^ (ex - e)) (Z.pos my * 2 ^ (ey - e)) in
      of_scaled (cond_Zopp sx r) e sx
  | S754_finite _ _ _, S754_infinity _ => x
  | S754_zero _, S754_finite _ _ _ => x
  | S754_zero _, S754_infinity _ => x
  | _, _ => S754_nan
  end.

Definition is_zero (x : spec_float) : bool := SFeqb x (S754_zero false).
Definition is_negative (x : spec_float) : bool := SFltb x (S754_zero false).

(** [copysign(0.0, x)]. *)
Definition zero_like (x : spec_float) : spec_float :=
  match x with
  | S754_zero s | S754_infinity s | S754_finite s _ _ => S754_zero s
  | S754_nan => S754_zero false
  end.

(** [vx % wx]; [None] is the [ZeroDivisionError]. *)
Definition mod_ (vx wx : spec_float) : option spec_float :=
  if is_zero wx then None else
  let m := fmod vx wx in
  Some (if negb (is_zero m)
        then if xorb (is_negative wx) (is_negative m) then add m wx else m
        else zero_like wx).

(** [vx // wx]; [None] is the [ZeroDivisionError]. *)
Definition floordiv (vx wx : spec_float) : option spec_float :=
  if is_zero wx then None else
  let m := fmod vx wx in
  let q := div (sub vx m) wx in
  let q :=
    if (negb (is_zero m) && xorb (is_negative wx) (is_negative m))%bool
    then sub q (of_int 1) else q in
  Some (if negb (is_zero q)
        then let f := floor q in
             if SFltb (of_scaled 1 (-1) false) (sub q f) then add f (of_int 1) else f
        else zero_like (div vx wx)).

Definition _seconds_to_ass_time (seconds : spec_float) : option string :=
  hours ← floordiv seconds (of_int 3600) ≫= int;
  minutes ← (mod_ seconds (of_int 3600) ≫= λ r, floordiv r (of_int 60)) ≫= int;
  secs ← mod_ seconds (of_int 60) ≫= int;
  centisecs ← mod_ seconds (of_int 1) ≫= λ r, int (mul r (of_int 100));
  Some (Py.str hours +:+ ":" +:+ Py.fmt0 2 minutes +:+ ":" +:+ Py.fmt0 2 secs
          +:+ "." +:+ Py.fmt0 2 centisecs).

Definition seconds_to_srt_time (seconds : spec_float) : option string :=
  hours ← floordiv seconds (of_int 3600) ≫= int;
  minutes ← (mod_ seconds (of_int 3600) ≫= λ r, floordiv r (of_int 60)) ≫= int;
  secs ← mod_ seconds (of_int 60) ≫= int;
  millisecs ← mod_ seconds (of_int 1) ≫= λ r, int (mul r (of_int 1000));
  Some (Py.fmt0 2 hours +:+ ":" +:+ Py.fmt0 2 minutes +:+ ":" +:+ Py.fmt0 2 secs
          +:+ "," +:+ Py.fmt0 3 millisecs).

(** [max(int(height * ratio), least)]. *)
Definition responsive_size (height : Z) (ratio : spec_float) (least : Z) : option Z :=
  size ← int (mul (of_int height) ratio);
  Some (Z.max size least).

End Binary64.


(** ** workflows/style_config.py *)

Record StyleConfig := {
  font_family : string;
  font_size_ratio : Q;
  font_weight : string;
  base_color : string;
  highlight_color : string;
  outline_color : string;
  highlight_style : string;
  outline_width : Z;
  glow_enabled : bool;
  glow_intensity : string;
  words_per_line : Z;
  position : string;
  alignment : Z;
  margin_ratio : Q;
  background_enabled : bool;
  background_color : string;
  background_opacity : Z
}.

(** The dataclass defaults: [StyleConfig()]. *)
Definition StyleConfig_default : StyleConfig := {|
  font_family := "Arial";
  font_size_ratio := 5 # 100;
  font_weight := "bold";
  base_color := "&Hffffff";
  highlight_color := "&H00d7ff";
  outline_color := "&H000000";
  highlight_style := "color_change";
  outline_width := 2;
  glow_enabled := false;
  glow_intensity := "none";
  words_per_line := 3;
  position := "bottom";
  alignment := 2;
  margin_ratio := 8 # 100;
  background_enabled := false;
  background_color := "&H80000000";
  background_opacity := 80
|}.

Module StylePresets.

Definition instagram_classic : StyleConfig := {|
  font_family := "Arial";
  font_size_ratio := 5 # 100;
  font_weight := "bold";
  base_color := "&Hffffff";
  highlight_color := "&H00d7ff";
  outline_color := "&H000000";
  highlight_style := "color_change";
  outline_width := 2;
  glow_enabled := false;
  glow_intensity := "none";
  words_per_line := 3;
  position := "bottom";
  alignment := 2;
  margin_ratio := 8 # 100;
  background_enabled := false;
  background_color := "&H80000000";
  background_opacity := 80
|}.

Definition tiktok_viral : StyleConfig := {|
  font_family := "Arial";
  font_size_ratio := 55 # 1000;
  font_weight := "bold";
  base_color := "&Hffffff";
  highlight_color := "&Hffff00";
  outline_color := "&H000000";
  highlight_style := "glow_pulse";
  outline_width := 1;
  glow_enabled := true;
  glow_intensity := "strong";
  words_per_line := 4;
  position := "bottom";
  alignment := 2;
  margin_ratio := 7 # 100;
  background_enabled := false;
  background_color := "&H80000000";
  background_opacity := 80
|}.

Definition youtube_professional : StyleConfig := {|
  font_family := "Arial";
  font_size_ratio := 45 # 1000;
  font_weight := "bold";
  base_color := "&Hffffff";
  highlight_color := "&H0000ff";
  outline_color := "&H000000";
  highlight_style := "background_highlight";
  outline_width := 2;
  glow_enabled := false;
  glow_intensity := "none";
  words_per_line := 3;
  position := "bottom";
  alignment := 2;
  margin_ratio := 9 # 100;
  background_enabled := true;
  background_color := "&H80000000";
  background_opacity := 70
|}.

Definition minimalist : StyleConfig := {|
  font_family := "Arial";
  font_size_ratio := 4 # 100;
  font_weight := "bold";
  base_color := "&Hffffff";
  highlight_color := "&He2904a";
  outline_color := "&H404040";
  highlight_style := "scale_up";
  outline_width := 1;
  glow_enabled := false;
  glow_intensity := "none";
  words_per_line := 3;
  position := "center";
  alignment := 2;
  margin_ratio := 1 # 10;
  background_enabled := false;
  background_color := "&H80000000";
  background_opacity := 80
|}.

Definition gaming : StyleConfig := {|
  font_family := "Arial";
  font_size_ratio := 6 # 100;
  font_weight := "bold";
  base_color := "&Hffffff";
  highlight_color := "&H00ff00";
  outline_color := "&H000000";
  highlight_style := "glow_pulse";
  outline_width := 3;
  glow_enabled := true;
  glow_intensity := "strong";
  words_per_line := 2;
  position := "bottom";
  alignment := 2;
  margin_ratio := 6 # 100;
  background_enabled := false;
  background_color := "&H80000000";
  background_opacity := 80
|}.

(** The dict literal of [get_preset], in source order. *)
Definition presets : gmap string StyleConfig :=
  list_to_map [
    ("instagram_classic", instagram_classic);
    ("tiktok_viral", tiktok_viral);
    ("youtube_professional", youtube_professional);
    ("minimalist", minimalist);
    ("gaming", gaming)
  ].

(** [presets.get(preset_name, presets["instagram_classic"])]: the default
    is looked up first (a [KeyError] there would be [None]). *)
Definition get_preset (preset_name : string) : option StyleConfig :=
  fallback ← presets !! "instagram_classic";
  Some (default fallback (presets !! preset_name)).

Definition list_presets : list string :=
  ["instagram_classic"; "tiktok_viral"; "youtube_professional";
   "minimalist"; "gaming"].

End StylePresets.

(** The first statement of [convert_hex_to_ass_color]: one leading ['#'] is
    dropped ([hex_color[1:]]). *)
Definition strip_hash (hex_color : string) : string :=
  if Py.startswith "#" hex_color
  then Py.slice 1 (String.length hex_color) hex_color
  else hex_color.

Definition convert_hex_to_ass_color (hex_color : string) : string :=
  let hex_color := strip_hash hex_color in
  if (String.length hex_color =? 6)%nat then
    let r := Py.slice 0 2 hex_color in
    let g := Py.slice 2 4 hex_color in
    let b := Py.slice 4 6 hex_color in
    "&H" +:+ b +:+ g +:+ r
  else "&Hffffff".

Definition convert_ass_to_hex_color (ass_color : string) : string :=
  if (Py.startswith "&H" ass_color && (8 <=? String.length ass_color)%nat)%bool then
    let color_part := Py.slice 2 8 ass_color in
    let b := Py.slice 0 2 color_part in
    let g := Py.slice 2 4 color_part in
    let r := Py.slice 4 6 color_part in
    Py.upper ("#" +:+ r +:+ g +:+ b)
  else "#FFFFFF".

(** ** workflows/process_video.py *)

(** A transcribed word: the dict [{"start", "end", "text"}]. *)
Module Word.
Record t := mk { start : Q; end_ : Q; text : string }.
End Word.

(** A display segment: the dict built by [create_word_groups] and read by
    the renderer. ["start"] and ["end"] are read with [segment[key]];
    ["words"] and ["display_text"] are read with [segment.get], so they may
    be absent. *)
Module Segment.
Record t := mk {
  start : Q;
  end_ : Q;
  words : option (list string);
  current_word_index : Z;
  current_word : string;
  display_text : option string
}.
End Segment.

Module VideoProcessor.

(** The inner loop [for j in range(words_per_group)], over the indices
    still to visit, with [group_words] as accumulator. *)
Fixpoint collect_group_words (words : list Word.t) (i : nat) (js : list nat)
    (group_words : list string) : option (list string) :=
  match js with
  | [] => Some group_words
  | j :: js' =>
      if decide (i + j < length words)%nat then
        word ← words !! (i + j)%nat;
        collect_group_words words i js' (group_words ++ [Word.text word])
      else collect_group_words words i js' group_words
  end.

(** [range(n)] for an [int] [n]: empty when [n <= 0]. *)
Definition range (n : Z) : list nat := seq 0 (Z.to_nat n).

(** One iteration of the outer loop: the segment anchored at [i]. *)
Definition group_at (words : list Word.t) (words_per_group : Z) (i : nat)
    : option Segment.t :=
  wi ← words !! i;
  let group_start := Word.start wi in
  group_end ←
    (if decide (i + 1 < length words)%nat
     then Word.start <$> words !! (i + 1)%nat
     else Some (Word.end_ wi));
  group_words ← collect_group_words words i (range words_per_group) [];
  Some {|
    Segment.start := group_start;
    Segment.end_ := group_end;
    Segment.words := Some group_words;
    Segment.current_word_index := 0;
    Segment.current_word := default "" (head group_words);
    Segment.display_text := Some (Py.join " " group_words)
  |}.

(** The outer loop [for i in range(len(words))], with [grouped_segments]
    as accumulator. *)
Fixpoint group_loop (words : list Word.t) (words_per_group : Z) (is_ : list nat)
    (grouped_segments : list Segment.t) : option (list Segment.t) :=
  match is_ with
  | [] => Some grouped_segments
  | i :: is' =>
      segment ← group_at words words_per_group i;
      group_loop words words_per_group is' (grouped_segments ++ [segment])
  end.

Definition create_word_groups (words : list Word.t) (words_per_group : Z)
    : option (list Segment.t) :=
  match words with
  | [] => Some []
  | _ => group_loop words words_per_group (seq 0 (length words)) []
  end.

(** [words_per_group: int = 3]. *)
Definition default_words_per_group : Z := 3.

Definition seconds_to_srt_time (seconds : Q) : string :=
  let hours := Py.int (Py.floordiv seconds 3600) in
  let minutes := Py.int (Py.floordiv (Py.mod_ seconds 3600) 60) in
  let secs := Py.int (Py.mod_ seconds 60) in
  let millisecs := Py.int (Py.mod_ seconds 1 * 1000)%Q in
  Py.fmt0 2 hours +:+ ":" +:+ Py.fmt0 2 minutes +:+ ":" +:+ Py.fmt0 2 secs
    +:+ "," +:+ Py.fmt0 3 millisecs.

End VideoProcessor.

(** ** workflows/ass_renderer.py *)

Module ASSRenderer.

Definition _seconds_to_ass_time (seconds : Q) : string :=
  let hours := Py.int (Py.floordiv seconds 3600) in
  let minutes := Py.int (Py.floordiv (Py.mod_ seconds 3600) 60) in
  let secs := Py.int (Py.mod_ seconds 60) in
  let centisecs := Py.int (Py.mod_ seconds 1 * 100)%Q in
  Py.str hours +:+ ":" +:+ Py.fmt0 2 minutes +:+ ":" +:+ Py.fmt0 2 secs
    +:+ "." +:+ Py.fmt0 2 centisecs.

Definition _get_highlight_scale (style : StyleConfig) : Z :=
  if String.eqb (highlight_style style) "scale_up" then 120 else 100.

(** The colour-switch pair of the [color_change] branch, which two other
    branches repeat verbatim. *)
Definition color_change_markup (style : StyleConfig) (word : string) : string :=
  "{\c" +:+ highlight_color style +:+ "&}" +:+ word
    +:+ "{\c" +:+ base_color style +:+ "&}".

(** The body of the [if i == 0] branch of [_create_styled_text]. *)
Definition highlight_first (style : StyleConfig) (word : string) : string :=
  if String.eqb (highlight_style style) "color_change" then
    color_change_markup style word
  else if String.eqb (highlight_style style) "scale_up" then
    let scale := Py.str (_get_highlight_scale style) in
    "{\fscx" +:+ scale +:+ "\fscy" +:+ scale +:+ "\c" +:+ highlight_color style
      +:+ "&}" +:+ word +:+ "{\fscx100\fscy100\c" +:+ base_color style +:+ "&}"
  else if String.eqb (highlight_style style) "glow_pulse" then
    if glow_enabled style then
      let shadow_size : Z :=
        if String.eqb (glow_intensity style) "strong" then 3 else 2 in
      "{\c" +:+ highlight_color style +:+ "&\3c" +:+ outline_color style
        +:+ "&\4c" +:+ highlight_color style +:+ "&\bord"
        +:+ Py.str (outline_width style) +:+ "\shad" +:+ Py.str shadow_size
        +:+ "}" +:+ word +:+ "{\c" +:+ base_color style +:+ "&\3c"
        +:+ outline_color style +:+ "&\4c&H00000000&\bord2\shad0}"
    else color_change_markup style word
  else if String.eqb (highlight_style style) "background_highlight" then
    "{\c" +:+ base_color style +:+ "&\3c" +:+ highlight_color style
      +:+ "&\bord6}" +:+ word +:+ "{\3c" +:+ outline_color style +:+ "&\bord2}"
  else color_change_markup style word.

(** The loop [for i, word in enumerate(words)], with [styled_parts] as
    accumulator. *)
Fixpoint styled_loop (style : StyleConfig) (i : nat) (words : list string)
    (styled_parts : list string) : list string :=
  match words with
  | [] => styled_parts
  | word :: rest =>
      let part := if (i =? 0)%nat then highlight_first style word else word in
      styled_loop style (S i) rest (styled_parts ++ [part])
  end.

Definition _create_styled_text (segment : Segment.t) (style : StyleConfig) : string :=
  let words := default [] (Segment.words segment) in
  match words with
  | [] => default "" (Segment.display_text segment)
  | _ => Py.join " " (styled_loop style 0 words [])
  end.

(** The value of the [BackColour] field of both style records. *)
Definition back_colour (style : StyleConfig) : string :=
  if background_enabled style then background_color style else "&H80000000".

Definition styles_format_line : string :=
  "Format: Name, Fontname, Fontsize, PrimaryColour, SecondaryColour, OutlineColour, BackColour, Bold, Italic, Underline, StrikeOut, ScaleX, ScaleY, Spacing, Angle, BorderStyle, Outline, Shadow, Alignment, MarginL, MarginR, MarginV, Encoding".

Definition events_format_line : string :=
  "Format: Layer, Start, End, Style, Name, MarginL, MarginR, MarginV, Effect, Text".

(** The lines of the f-string of [_generate_header] that have holes. *)
Definition title_line (style : StyleConfig) : string :=
  "Title: Subtitle Ninja - " +:+ font_family style.

Definition default_style_line (font_size margin_side margin_bottom : Z)
    (style : StyleConfig) : string :=
  "Style: Default," +:+ font_family style +:+ "," +:+ Py.str font_size
    +:+ "," +:+ base_color style +:+ "," +:+ base_color style
    +:+ "," +:+ outline_color style +:+ "," +:+ back_colour style
    +:+ ",1,0,0,0,100,100,0,0,1," +:+ Py.str (outline_width style)
    +:+ ",0," +:+ Py.str (alignment style) +:+ "," +:+ Py.str margin_side
    +:+ "," +:+ Py.str margin_side +:+ "," +:+ Py.str margin_bottom
    +:+ ",1".

Definition highlight_style_line (font_size margin_side margin_bottom : Z)
    (style : StyleConfig) : string :=
  "Style: Highlight," +:+ font_family style +:+ "," +:+ Py.str font_size
    +:+ "," +:+ highlight_color style +:+ "," +:+ highlight_color style
    +:+ "," +:+ outline_color style +:+ "," +:+ back_colour style
    +:+ ",1,0,0,0," +:+ Py.str (_get_highlight_scale style)
    +:+ "," +:+ Py.str (_get_highlight_scale style)
    +:+ ",0,0,1," +:+ Py.str (outline_width style)
    +:+ ",0," +:+ Py.str (alignment style) +:+ "," +:+ Py.str margin_side
    +:+ "," +:+ Py.str margin_side +:+ "," +:+ Py.str margin_bottom
    +:+ ",1".

Definition _generate_header (font_size margin_side margin_bottom : Z)
    (style : StyleConfig) : string :=
  "[Script Info]" +:+ Py.NL
  +:+ title_line style +:+ Py.NL
  +:+ "ScriptType: v4.00+" +:+ Py.NL
  +:+ "" +:+ Py.NL
  +:+ "[V4+ Styles]" +:+ Py.NL
  +:+ styles_format_line +:+ Py.NL
  +:+ default_style_line font_size margin_side margin_bottom style +:+ Py.NL
  +:+ highlight_style_line font_size margin_side margin_bottom style +:+ Py.NL
  +:+ "" +:+ Py.NL
  +:+ "[Events]" +:+ Py.NL
  +:+ events_format_line +:+ Py.NL.

(** The body of the loop of [_generate_ass_content]: one event line. *)
Definition dialogue_line (style : StyleConfig) (segment : Segment.t) : string :=
  let start_time := _seconds_to_ass_time (Segment.start segment) in
  let end_time := _seconds_to_ass_time (Segment.end_ segment) in
  let styled_text := _create_styled_text segment style in
  "Dialogue: 0," +:+ start_time +:+ "," +:+ end_time
    +:+ ",Default,,0,0,0,," +:+ styled_text.

Definition _generate_ass_content (segments : list Segment.t) (width height : Z)
    (style : StyleConfig) : string :=
  let font_size := Z.max (Py.int (inject_Z height * font_size_ratio style)%Q) 16 in
  let margin_bottom := Z.max (Py.int (inject_Z height * margin_ratio style)%Q) 20 in
  let margin_side := 20 in
  let header := _generate_header font_size margin_side margin_bottom style in
  let dialogue_lines := map (dialogue_line style) segments in
  header +:+ Py.join Py.NL dialogue_lines.

Definition placeholder_event : string :=
  "Dialogue: 0,0:00:00.00,0:00:05.00,Default,,0,0,0,,No speech detected".

(** The one style line of the f-string of [_generate_empty_ass_file]. *)
Definition fallback_style_line (font_size margin_bottom : Z)
    (style : StyleConfig) : string :=
  "Style: Default," +:+ font_family style +:+ "," +:+ Py.str font_size
    +:+ "," +:+ base_color style +:+ "," +:+ base_color style
    +:+ "," +:+ outline_color style
    +:+ ",&H80000000,1,0,0,0,100,100,0,0,1,2,0,2,20,20,"
    +:+ Py.str margin_bottom +:+ ",1".

Definition _generate_empty_ass_file (style : StyleConfig) (width height : Z) : string :=
  let font_size := Z.max (Py.int (inject_Z height * font_size_ratio style)%Q) 16 in
  let margin_bottom := Z.max (Py.int (inject_Z height * margin_ratio style)%Q) 20 in
  "[Script Info]" +:+ Py.NL
  +:+ "Title: Subtitle Ninja" +:+ Py.NL
  +:+ "ScriptType: v4.00+" +:+ Py.NL
  +:+ "" +:+ Py.NL
  +:+ "[V4+ Styles]" +:+ Py.NL
  +:+ styles_format_line +:+ Py.NL
  +:+ fallback_style_line font_size margin_bottom style +:+ Py.NL
  +:+ "" +:+ Py.NL
  +:+ "[Events]" +:+ Py.NL
  +:+ events_format_line +:+ Py.NL
  +:+ placeholder_event +:+ Py.NL.

(** [render_subtitles] writes the markup to [/tmp/subtitles_<job_id>.ass]
    and returns that path; the file system is a map from path to content,
    threaded through the call. *)
Definition render_subtitles (job_id : string) (segments : list Segment.t)
    (width height : Z) (style : StyleConfig) (fs : gmap string string)
    : string * gmap string string :=
  let ass_path := "/tmp/subtitles_" +:+ job_id +:+ ".ass" in
  let ass_content :=
    match segments with
    | [] => _generate_empty_ass_file style width height
    | _ => _generate_ass_content segments width height style
    end in
  (ass_path, <[ass_path := ass_content]> fs).

End ASSRenderer.

(** * The rest of the code *)

(** ** More Python primitives *)

Module PyStr.

(** [c.isspace()], for the characters of Latin-1: the ASCII white space,
    the four separators [\x1c]..[\x1f], [\x85] and [\xa0]. *)
Definition is_space (c : ascii) : bool :=
  let n := nat_of_ascii c in
  ((9 <=? n)%nat && (n <=? 13)%nat) || ((28 <=? n)%nat && (n <=? 32)%nat)
  || (n =? 133)%nat || (n =? 160)%nat.

(** [s.lstrip()], [s.rstrip()] and [s.strip()]. *)
Fixpoint lstrip (s : string) : string :=
  match s with
  | "" => ""
  | String c s' => if is_space c then lstrip s' else s
  end.

Fixpoint rstrip (s : string) : string :=
  match s with
  | "" => ""
  | String c s' =>
      match rstrip s' with
      | "" => if is_space c then "" else String c ""
      | r => String c r
      end
  end.

Definition strip (s : string) : string := rstrip (lstrip s).

(** [s.replace(old, new)] for a one-character [old]. *)
Fixpoint replace_char (old : ascii) (new : string) (s : string) : string :=
  match s with
  | "" => ""
  | String c s' =>
      if Ascii.eqb c old then new +:+ replace_char old new s'
      else String c (replace_char old new s')
  end.

End PyStr.

(** ** workflows/style_config.py: the preset descriptions *)

(** One entry of [StylePresets.get_preset_info]: the dict
    [{"name", "description", "best_for"}]. *)
Record PresetInfo := {
  info_name : string;
  info_description : string;
  info_best_for : string
}.

(** [StylePresets.get_preset_info]. *)
Definition get_preset_info : gmap string PresetInfo :=
  list_to_map [
    ("instagram_classic",
     {| info_name := "Instagram Classic";
        info_description := "Clean white text with gold highlight";
        info_best_for := "Professional content, tutorials" |});
    ("tiktok_viral",
     {| info_name := "TikTok Viral";
        info_description := "Bold text with cyan glow effect";
        info_best_for := "Dance videos, trends, young audience" |});
    ("youtube_professional",
     {| info_name := "YouTube Professional";
        info_description := "Red background highlight style";
        info_best_for := "Educational content, business videos" |});
    ("minimalist",
     {| info_name := "Minimalist";
        info_description := "Subtle scale effect with soft colors";
        info_best_for := "Aesthetic content, quotes" |});
    ("gaming",
     {| info_name := "Gaming/Streamer";
        info_description := "Bold green glow with thick outline";
        info_best_for := "Gaming content, reactions" |})
  ].

(** ** api/main.py: the style selection of [upload_video] *)

(** The statement "Validate style preset" of [upload_video]:
    [if style_preset not in StylePresets.list_presets(): style_preset =
    "instagram_classic"]. *)
Definition upload_style_preset (style_preset : string) : string :=
  if bool_decide (style_preset ∈ StylePresets.list_presets)
  then style_preset
  else "instagram_classic".

(** ** workflows/process_video.py: the transcript *)

(** The result of the transcription, as [transcribe_audio] reads it: each
    segment has ["start"], ["end"] and ["text"], and may have ["words"], a
    list of dicts with ["start"], ["end"] and ["word"]. *)
Module Whisper.
Record word := mk_word { word_start : Q; word_end : Q; word_text : string }.
Record segment := mk_segment {
  start : Q;
  end_ : Q;
  text : string;
  words : option (list word)
}.
End Whisper.

(** The other methods of [VideoProcessor]. *)
Module Processor.

(** The loop [for word in segment["words"]] of [transcribe_audio], with
    [individual_words] as accumulator. *)
Fixpoint words_loop (words : list Whisper.word) (individual_words : list Word.t)
    : list Word.t :=
  match words with
  | [] => individual_words
  | word :: words' =>
      words_loop words'
        (individual_words
         ++ [{| Word.start := Whisper.word_start word;
                Word.end_ := Whisper.word_end word;
                Word.text := PyStr.strip (Whisper.word_text word) |}])
  end.

(** The loop [for segment in result["segments"]]. *)
Fixpoint segments_loop (segments : list Whisper.segment)
    (individual_words : list Word.t) : list Word.t :=
  match segments with
  | [] => individual_words
  | segment :: segments' =>
      match Whisper.words segment with
      | Some words => segments_loop segments' (words_loop words individual_words)
      | None =>
          segments_loop segments'
            (individual_words
             ++ [{| Word.start := Whisper.start segment;
                    Word.end_ := Whisper.end_ segment;
                    Word.text := PyStr.strip (Whisper.text segment) |}])
      end
  end.

(** [transcribe_audio], from the result of the transcription on: the list
    [result["segments"]] is the argument. *)
Definition transcribe_audio (result_segments : list Whisper.segment)
    : option (list Segment.t) :=
  let individual_words := segments_loop result_segments [] in
  VideoProcessor.create_word_groups individual_words
    VideoProcessor.default_words_per_group.

(** A segment as [create_srt_file_from_segments] reads it: the dict of
    [create_word_groups], which may also have a ["text"] entry (the older
    form of a segment). *)
Record TextSegment := {
  segment_dict : Segment.t;
  segment_text : option string
}.

(** The text of one SRT block: the statements from
    [text = segment.get("display_text", "").strip()] to the [elif]. *)
Definition srt_text (segment : TextSegment) : string :=
  let text := PyStr.strip (default "" (Segment.display_text (segment_dict segment))) in
  if String.eqb text "" then
    match Segment.words (segment_dict segment) with
    | Some words => PyStr.strip (Py.join " " words)
    | None =>
        match segment_text segment with
        | Some t => PyStr.strip t
        | None => text
        end
    end
  else text.

(** The loop [for i, segment in enumerate(segments, 1)], with [srt_lines]
    as accumulator. *)
Fixpoint srt_loop (i : Z) (segments : list TextSegment) (srt_lines : list string)
    : list string :=
  match segments with
  | [] => srt_lines
  | segment :: segments' =>
      let start_time :=
        VideoProcessor.seconds_to_srt_time (Segment.start (segment_dict segment)) in
      let end_time :=
        VideoProcessor.seconds_to_srt_time (Segment.end_ (segment_dict segment)) in
      let text := srt_text segment in
      srt_loop (i + 1) segments'
        (if String.eqb text "" then srt_lines
         else srt_lines
              ++ [Py.str i; start_time +:+ " --> " +:+ end_time; text; ""])
  end.

(** The content [create_srt_file_from_segments] writes. *)
Definition srt_content (segments : list TextSegment) : string :=
  match segments with
  | [] =>
      "1" +:+ Py.NL +:+ "00:00:00,000 --> 00:00:05,000" +:+ Py.NL
      +:+ "No speech detected" +:+ Py.NL +:+ Py.NL
  | _ => Py.join Py.NL (srt_loop 1 segments [])
  end.

Definition create_srt_file_from_segments (job_id : string)
    (segments : list TextSegment) (fs : gmap string string)
    : string * gmap string string :=
  let srt_path := "/tmp/subtitles_" +:+ job_id +:+ ".srt" in
  (srt_path, <[srt_path := srt_content segments]> fs).

(** The older markup generator of [VideoProcessor], with the Instagram
    Classic style written into it. *)
Definition seconds_to_ass_time (seconds : Q) : string :=
  let hours := Py.int (Py.floordiv seconds 3600) in
  let minutes := Py.int (Py.floordiv (Py.mod_ seconds 3600) 60) in
  let secs := Py.int (Py.mod_ seconds 60) in
  let centisecs := Py.int (Py.mod_ seconds 1 * 100)%Q in
  Py.str hours +:+ ":" +:+ Py.fmt0 2 minutes +:+ ":" +:+ Py.fmt0 2 secs
    +:+ "." +:+ Py.fmt0 2 centisecs.

(** The loop [for i, word in enumerate(words)] of
    [create_highlighted_ass_text]. *)
Fixpoint highlighted_loop (i : nat) (words : list string)
    (highlighted_parts : list string) : list string :=
  match words with
  | [] => highlighted_parts
  | word :: rest =>
      let part :=
        if (i =? 0)%nat then "{\c&H00d7ff&}" +:+ word +:+ "{\c&Hffffff&}"
        else word in
      highlighted_loop (S i) rest (highlighted_parts ++ [part])
  end.

Definition create_highlighted_ass_text (segment : Segment.t) : string :=
  let words := default [] (Segment.words segment) in
  match words with
  | [] => default "" (Segment.display_text segment)
  | _ => Py.join " " (highlighted_loop 0 words [])
  end.

(** The body of the loop of [generate_ass_content]: one event line. *)
Definition dialogue_line (segment : Segment.t) : string :=
  let start_time := seconds_to_ass_time (Segment.start segment) in
  let end_time := seconds_to_ass_time (Segment.end_ segment) in
  let highlighted_text := create_highlighted_ass_text segment in
  "Dialogue: 0," +:+ start_time +:+ "," +:+ end_time
    +:+ ",Default,,0,0,0,," +:+ highlighted_text.

Definition generate_ass_content (segments : list Segment.t) (width height : Z)
    : string :=
  let base_font_size := Z.max (Py.int (inject_Z height * (5 # 100))%Q) 20 in
  let bottom_margin := Z.max (Py.int (inject_Z height * (8 # 100))%Q) 30 in
  let header :=
    "[Script Info]" +:+ Py.NL
    +:+ "Title: Subtitle Ninja - Instagram Classic" +:+ Py.NL
    +:+ "ScriptType: v4.00+" +:+ Py.NL
    +:+ "" +:+ Py.NL
    +:+ "[V4+ Styles]" +:+ Py.NL
    +:+ ASSRenderer.styles_format_line +:+ Py.NL
    +:+ ("Style: Default,Arial," +:+ Py.str base_font_size
         +:+ ",&Hffffff,&Hffffff,&H000000,&H80000000,1,0,0,0,100,100,0,0,1,2,0,2,20,20,"
         +:+ Py.str bottom_margin +:+ ",1") +:+ Py.NL
    +:+ ("Style: Highlight,Arial," +:+ Py.str base_font_size
         +:+ ",&H00d7ff,&H00d7ff,&H000000,&H80000000,1,0,0,0,100,100,0,0,1,2,0,2,20,20,"
         +:+ Py.str bottom_margin +:+ ",1") +:+ Py.NL
    +:+ "" +:+ Py.NL
    +:+ "[Events]" +:+ Py.NL
    +:+ ASSRenderer.events_format_line +:+ Py.NL in
  let dialogue_lines := map dialogue_line segments in
  header +:+ Py.join Py.NL dialogue_lines.

Definition generate_empty_ass_file : string :=
  "[Script Info]" +:+ Py.NL
  +:+ "Title: Subtitle Ninja" +:+ Py.NL
  +:+ "ScriptType: v4.00+" +:+ Py.NL
  +:+ "" +:+ Py.NL
  +:+ "[V4+ Styles]" +:+ Py.NL
  +:+ ASSRenderer.styles_format_line +:+ Py.NL
  +:+ "Style: Default,Arial,24,&Hffffff,&Hffffff,&H000000,&H80000000,1,0,0,0,100,100,0,0,1,2,0,2,20,20,50,1"
  +:+ Py.NL
  +:+ "" +:+ Py.NL
  +:+ "[Events]" +:+ Py.NL
  +:+ ASSRenderer.events_format_line +:+ Py.NL
  +:+ "Dialogue: 0,0:00:00.00,0:00:05.00,Default,,0,0,0,,No speech detected"
  +:+ Py.NL.

Definition create_ass_file_from_segments (job_id : string)
    (segments : list Segment.t) (width height : Z) (fs : gmap string string)
    : string * gmap string string :=
  let ass_path := "/tmp/subtitles_" +:+ job_id +:+ ".ass" in
  let ass_content :=
    match segments with
    | [] => generate_empty_ass_file
    | _ => generate_ass_content segments width height
    end in
  (ass_path, <[ass_path := ass_content]> fs).

(** The dict [get_subtitle_config] returns. *)
Record SubtitleConfig := {
  fontsize : Z;
  y : Z;
  box_color : string;
  font_color : string;
  config_outline_color : string;
  config_outline_width : Z;
  config_alignment : string;
  max_width : Z
}.

Definition get_subtitle_config (width height : Z) (aspect_ratio : Q)
    : SubtitleConfig :=
  if negb (Qle_bool (75 # 100) aspect_ratio) then
    {| fontsize := Z.max (Py.int (inject_Z height * (6 # 100))%Q) 24;
       y := height - Py.int (inject_Z height * (25 # 100))%Q;
       box_color := "black@0.7";
       font_color := "white";
       config_outline_color := "black";
       config_outline_width := 2;
       config_alignment := "center";
       max_width := Py.int (inject_Z width * (9 # 10))%Q |}
  else if negb (Qle_bool aspect_ratio (15 # 10)) then
    {| fontsize := Z.max (Py.int (inject_Z height * (8 # 100))%Q) 28;
       y := height - Py.int (inject_Z height * (15 # 100))%Q;
       box_color := "black@0.7";
       font_color := "white";
       config_outline_color := "black";
       config_outline_width := 2;
       config_alignment := "center";
       max_width := Py.int (inject_Z width * (8 # 10))%Q |}
  else
    {| fontsize := Z.max (Py.int (inject_Z height * (7 # 100))%Q) 26;
       y := height - Py.int (inject_Z height * (2 # 10))%Q;
       box_color := "black@0.7";
       font_color := "white";
       config_outline_color := "black";
       config_outline_width := 2;
       config_alignment := "center";
       max_width := Py.int (inject_Z width * (85 # 100))%Q |}.

End Processor.

(** * Vocabulary of the properties *)

(** The words of the example of the specification. *)
Definition example_words : list Word.t := [
  Word.mk 0 (5 # 10) "hello";
  Word.mk (5 # 10) (12 # 10) "there";
  Word.mk (12 # 10) (18 # 10) "friend"
].

Definition example_segments : list Segment.t := [
  Segment.mk 0 (5 # 10) (Some ["hello"; "there"; "friend"]) 0 "hello"
    (Some "hello there friend");
  Segment.mk (5 # 10) (12 # 10) (Some ["there"; "friend"]) 0 "there"
    (Some "there friend");
  Segment.mk (12 # 10) (18 # 10) (Some ["friend"]) 0 "friend" (Some "friend")
].

(** The characters of a hexadecimal digit (Python's [string.hexdigits]). *)
Definition is_hex_digit (c : ascii) : bool :=
  existsb (Ascii.eqb c) (list_ascii_of_string "0123456789abcdefABCDEF").

(** A well-formed colour body: six hexadecimal digits. *)
Definition hex6 (s : string) : Prop :=
  String.length s = 6%nat ∧ forallb is_hex_digit (list_ascii_of_string s) = true.

(** A well-formed colour: six hexadecimal digits after the optional ['#']. *)
Definition well_formed_hex (s : string) : Prop := hex6 (strip_hash s).

(** The decimal digit [d] as a character, and the [width] low decimal
    digits of [n], most significant first: a fixed-width, zero-padded
    field. *)
Definition digit_char (d : Z) : ascii := ascii_of_nat (48 + Z.to_nat d).

Fixpoint fixed_digits (width : nat) (n : Z) : string :=
  match width with
  | O => ""
  | S w => fixed_digits w (Z.div n 10) +:+ String (digit_char (Z.modulo n 10)) ""
  end.

(** A string without a line break: it is one line of the markup. *)
Fixpoint no_nl (s : string) : bool :=
  match s with
  | "" => true
  | String c s' => negb (Ascii.eqb c Py.nl) && no_nl s'
  end.

(** The strings of a style that reach the markup, and the texts of a
    segment, are single lines. *)
Definition style_no_nl (style : StyleConfig) : bool :=
  no_nl (font_family style) && no_nl (base_color style)
  && no_nl (highlight_color style) && no_nl (outline_color style)
  && no_nl (background_color style).

Definition segment_no_nl (segment : Segment.t) : bool :=
  forallb no_nl (default [] (Segment.words segment))
  && no_nl (default "" (Segment.display_text segment)).

(** The lines of a markup text that are style records and events, and the
    name of a style record (its first field). *)
Definition is_style_record (line : string) : bool := Py.startswith "Style: " line.
Definition is_event (line : string) : bool := Py.startswith "Dialogue: " line.

Fixpoint before_comma (s : string) : string :=
  match s with
  | "" => ""
  | String c s' => if Ascii.eqb c "," then "" else String c (before_comma s')
  end.

Definition record_name (line : string) : string :=
  before_comma (Py.slice 7 (String.length line) line).

Definition style_records (text : string) : list string :=
  List.filter is_style_record (Py.split_nl text).

Definition event_lines (text : string) : list string :=
  List.filter is_event (Py.split_nl text).

(** The lines of the two headers. *)
Definition header_lines (font_size margin_side margin_bottom : Z)
    (style : StyleConfig) : list string := [
  "[Script Info]";
  ASSRenderer.title_line style;
  "ScriptType: v4.00+";
  "";
  "[V4+ Styles]";
  ASSRenderer.styles_format_line;
  ASSRenderer.default_style_line font_size margin_side margin_bottom style;
  ASSRenderer.highlight_style_line font_size margin_side margin_bottom style;
  "";
  "[Events]";
  ASSRenderer.events_format_line
].

Definition fallback_lines (font_size margin_bottom : Z) (style : StyleConfig)
    : list string := [
  "[Script Info]";
  "Title: Subtitle Ninja";
  "ScriptType: v4.00+";
  "";
  "[V4+ Styles]";
  ASSRenderer.styles_format_line;
  ASSRenderer.fallback_style_line font_size margin_bottom style;
  "";
  "[Events]";
  ASSRenderer.events_format_line;
  ASSRenderer.placeholder_event;
  ""
].


Definition round_half_even (x : Q) : Z :=
  let f := Qfloor x in
  match (x - inject_Z f ?= 1 # 2)%Q with
  | Lt => f
  | Gt => f + 1
  | Eq => if Z.even f then f else f + 1
  end.

(** The field names of a style record, as the [Format:] line lists them, a
    record as the comma-joined list of its fields, and the field of a given
    name. *)
Definition styles_format_names : list string := [
  "Name"; "Fontname"; "Fontsize"; "PrimaryColour"; "SecondaryColour";
  "OutlineColour"; "BackColour"; "Bold"; "Italic"; "Underline"; "StrikeOut";
  "ScaleX"; "ScaleY"; "Spacing"; "Angle"; "BorderStyle"; "Outline"; "Shadow";
  "Alignment"; "MarginL"; "MarginR"; "MarginV"; "Encoding"
].


Definition record_field (name : string) (fields : list string) : option string :=
  '(i, _) ← list_find (λ n, n = name) styles_format_names;
  fields !! i.

Definition default_record_fields (font_size margin_side margin_bottom : Z)
    (style : StyleConfig) : list string := [
  "Default"; font_family style; Py.str font_size; base_color style;
  base_color style; outline_color style; ASSRenderer.back_colour style;
  "1"; "0"; "0"; "0"; "100"; "100"; "0"; "0"; "1";
  Py.str (outline_width style); "0"; Py.str (alignment style);
  Py.str margin_side; Py.str margin_side; Py.str margin_bottom; "1"
].





(** A packed colour: [&H] followed by six hexadecimal digits. *)
Definition packed6 (c : string) : bool :=
  Py.startswith "&H" c && (String.length c =? 8)%nat
  && forallb is_hex_digit (list_ascii_of_string (Py.slice 2 8 c)).

(** The highlight styles that [_create_styled_text] tests for by name. *)
Definition handled_highlight_styles : list string :=
  ["color_change"; "scale_up"; "glow_pulse"; "background_highlight"].

(** The words one segment of the transcription stands for: its word list
    when it has one, else the segment as a single word. *)
Definition words_of_segment (segment : Whisper.segment) : list Word.t :=
  match Whisper.words segment with
  | Some words =>
      (λ word, Word.mk (Whisper.word_start word) (Whisper.word_end word)
                 (PyStr.strip (Whisper.word_text word))) <$> words
  | None =>
      [Word.mk (Whisper.start segment) (Whisper.end_ segment)
         (PyStr.strip (Whisper.text segment))]
  end.

(** The text a player shows for an event text: the override blocks, from a
    ['{'] to the next ['}'], are left out. *)
Fixpoint visible_from (inside : bool) (s : string) : string :=
  match s with
  | "" => ""
  | String c s' =>
      if inside then visible_from (negb (Ascii.eqb c "}")) s'
      else if Ascii.eqb c "{" then visible_from true s'
      else String c (visible_from false s')
  end.

Definition visible_text (s : string) : string := visible_from false s.

(** A string without braces. *)
Fixpoint no_brace (s : string) : bool :=
  match s with
  | "" => true
  | String c s' => negb (Ascii.eqb c "{") && negb (Ascii.eqb c "}") && no_brace s'
  end.

(** * Properties *)

(** ** The Word Grouper *)

Section word_grouper.
Import VideoProcessor.

Variable words : list Word.t.
Variable words_per_group : Z.

(** The inner loop appends the texts of a slice of [words]. *)
Lemma collect_group_words_seq i n a acc :
  collect_group_words words i (seq a n) acc
  = Some (acc ++ (Word.text <$> take n (drop (i + a) words))).
Proof.
  revert a acc. induction n as [|n IH]; intros a acc; simpl.
  - by rewrite app_nil_r.
  - case_decide as Hlt.
    + destruct (lookup_lt_is_Some_2 words (i + a)%nat Hlt) as [w Hw].
      rewrite Hw. simpl. rewrite IH.
      rewrite (drop_S words w (i + a)) by done. simpl.
      rewrite <- app_assoc. simpl.
      by replace (i + S a)%nat with (S (i + a)) by lia.
    + rewrite IH. rewrite (drop_ge words (i + a)) by lia.
      rewrite (drop_ge words (i + S a)) by lia.
      by rewrite !take_nil.
Qed.

(** What the loop body builds at an index that exists. *)
Lemma group_at_Some i w :
  words !! i = Some w →
  group_at words words_per_group i = Some {|
    Segment.start := Word.start w;
    Segment.end_ :=
      match words !! (i + 1)%nat with
      | Some w' => Word.start w'
      | None => Word.end_ w
      end;
    Segment.words :=
      Some (Word.text <$> take (Z.to_nat words_per_group) (drop i words));
    Segment.current_word_index := 0;
    Segment.current_word :=
      default "" (head (Word.text <$> take (Z.to_nat words_per_group) (drop i words)));
    Segment.display_text :=
      Some (Py.join " " (Word.text <$> take (Z.to_nat words_per_group) (drop i words)))
  |}.
Proof.
  intros Hw. unfold group_at, range. rewrite Hw. simpl.
  rewrite collect_group_words_seq. simpl.
  replace (i + 0)%nat with i by lia.
  case_decide as Hlt.
  - destruct (lookup_lt_is_Some_2 words (i + 1)%nat Hlt) as [w' Hw'].
    by rewrite Hw'.
  - by rewrite (lookup_ge_None_2 words (i + 1)%nat) by lia.
Qed.

(** The outer loop is a [mapM] of the loop body. *)
Lemma group_loop_mapM is_ acc :
  group_loop words words_per_group is_ acc
  = (acc ++.) <$> mapM (group_at words words_per_group) is_.
Proof.
  revert acc. induction is_ as [|i is_ IH]; intros acc; simpl.
  - by rewrite app_nil_r.
  - destruct (group_at words words_per_group i) as [s|]; simpl; [|done].
    rewrite IH. destruct (mapM _ is_) as [segs|]; simpl; [|done].
    by rewrite <- app_assoc.
Qed.

Lemma create_word_groups_mapM :
  create_word_groups words words_per_group
  = mapM (group_at words words_per_group) (seq 0 (length words)).
Proof.
  assert (group_loop words words_per_group (seq 0 (length words)) []
          = mapM (group_at words words_per_group) (seq 0 (length words))) as <-.
  { rewrite group_loop_mapM. by destruct (mapM _ _). }
  unfold create_word_groups. by destruct words.
Qed.

(** The grouper never raises: every index it visits exists. *)
Lemma create_word_groups_total :
  ∃ segments, create_word_groups words words_per_group = Some segments.
Proof.
  rewrite create_word_groups_mapM.
  apply mapM_is_Some. apply Forall_forall. intros i Hi.
  apply elem_of_seq in Hi.
  destruct (lookup_lt_is_Some_2 words i) as [w Hw]; [lia|].
  unfold compose. rewrite (group_at_Some i w Hw). eauto.
Qed.

(** Segment [i] of the output is the one the loop body builds at [i]. *)
Lemma create_word_groups_lookup segments i :
  create_word_groups words words_per_group = Some segments →
  (i < length words)%nat →
  ∃ s, segments !! i = Some s ∧ group_at words words_per_group i = Some s.
Proof.
  rewrite create_word_groups_mapM. intros HM Hi.
  apply mapM_Some in HM.
  destruct (Forall2_lookup_l _ _ _ i i HM) as (s & Hs & Hg).
  - by apply lookup_seq_lt.
  - eauto.
Qed.

Lemma create_word_groups_length segments :
  create_word_groups words words_per_group = Some segments →
  length segments = length words.
Proof.
  rewrite create_word_groups_mapM. intros HM.
  apply mapM_Some, Forall2_length in HM. by rewrite length_seq in HM.
Qed.

End word_grouper.

Example create_word_groups_example :
  VideoProcessor.create_word_groups example_words
    VideoProcessor.default_words_per_group = Some example_segments.
Proof. reflexivity. Qed.

(** C1. For every word sequence and every positive [words_per_group], the
    grouper returns one segment per word: segment [i] holds the texts of
    [words[i : i + words_per_group]] (so its first, highlighted word is word
    [i]), starts at [words[i].start], and ends at [words[i+1].start] when
    that word exists and at [words[i].end] otherwise; the output is as long
    as the input. *)
Theorem create_word_groups_sliding_window (words : list Word.t) (words_per_group : Z) :
  0 < words_per_group →
  ∃ segments,
    VideoProcessor.create_word_groups words words_per_group = Some segments
    ∧ length segments = length words
    ∧ ∀ i w, words !! i = Some w →
        ∃ s, segments !! i = Some s
          ∧ Segment.words s
            = Some (Word.text <$> Py.lslice i (i + Z.to_nat words_per_group) words)
          ∧ Segment.current_word s = Word.text w
          ∧ Segment.start s = Word.start w
          ∧ Segment.end_ s
            = match words !! (i + 1)%nat with
              | Some w' => Word.start w'
              | None => Word.end_ w
              end.
Proof.
  intros Hpos.
  destruct (create_word_groups_total words words_per_group) as [segments Hsegs].
  exists segments. split; [done|]. split.
  - by eapply create_word_groups_length.
  - intros i w Hw.
    destruct (create_word_groups_lookup _ _ segments i Hsegs) as (s & Hs & Hg).
    { by eapply lookup_lt_Some. }
    exists s. split; [done|].
    rewrite (group_at_Some _ _ i w Hw) in Hg. injection Hg as <-. simpl.
    split; [|split; [|done]].
    + unfold Py.lslice.
      by replace (i + Z.to_nat words_per_group - i)%nat
        with (Z.to_nat words_per_group) by lia.
    + rewrite (drop_S words w i Hw).
      destruct (Z.to_nat words_per_group) as [|k] eqn:E; [lia|done].
Qed.

Lemma create_word_groups_sliding_window_witness :
  0 < VideoProcessor.default_words_per_group ∧
  ∃ segments,
    VideoProcessor.create_word_groups example_words
      VideoProcessor.default_words_per_group = Some segments
    ∧ length segments = length example_words
    ∧ ∀ i w, example_words !! i = Some w →
        ∃ s, segments !! i = Some s
          ∧ Segment.words s
            = Some (Word.text <$>
                      Py.lslice i
                        (i + Z.to_nat VideoProcessor.default_words_per_group)
                        example_words)
          ∧ Segment.current_word s = Word.text w
          ∧ Segment.start s = Word.start w
          ∧ Segment.end_ s
            = match example_words !! (i + 1)%nat with
              | Some w' => Word.start w'
              | None => Word.end_ w
              end.
Proof.
  split; [reflexivity|].
  apply (create_word_groups_sliding_window example_words
           VideoProcessor.default_words_per_group).
  reflexivity.
Defined.

(** C2. Whenever segments [i] and [i+1] both exist in the grouper's output,
    segment [i] ends exactly where segment [i+1] starts. *)
Theorem segments_contiguous (words : list Word.t) (words_per_group : Z)
    (segments : list Segment.t) (i : nat) (s1 s2 : Segment.t) :
  VideoProcessor.create_word_groups words words_per_group = Some segments →
  segments !! i = Some s1 →
  segments !! (i + 1)%nat = Some s2 →
  Segment.end_ s1 = Segment.start s2.
Proof.
  intros Hsegs H1 H2.
  pose proof (create_word_groups_length _ _ _ Hsegs) as Hlen.
  apply lookup_lt_Some in H1 as Hi1. apply lookup_lt_Some in H2 as Hi2.
  destruct (create_word_groups_lookup _ _ segments i Hsegs) as (s1' & Hs1 & Hg1);
    [lia|].
  destruct (create_word_groups_lookup _ _ segments (i + 1) Hsegs) as (s2' & Hs2 & Hg2);
    [lia|].
  simplify_eq.
  destruct (lookup_lt_is_Some_2 words i) as [w Hw]; [lia|].
  destruct (lookup_lt_is_Some_2 words (i + 1)) as [w' Hw']; [lia|].
  rewrite (group_at_Some _ _ i w Hw) in Hg1.
  rewrite (group_at_Some _ _ (i + 1) w' Hw') in Hg2.
  injection Hg1 as <-. injection Hg2 as <-. simpl. by rewrite Hw'.
Qed.

Lemma segments_contiguous_witness :
  VideoProcessor.create_word_groups example_words 3 = Some example_segments
  ∧ example_segments !! 0%nat
    = Some (Segment.mk 0 (5 # 10) (Some ["hello"; "there"; "friend"]) 0 "hello"
              (Some "hello there friend"))
  ∧ example_segments !! 1%nat
    = Some (Segment.mk (5 # 10) (12 # 10) (Some ["there"; "friend"]) 0 "there"
              (Some "there friend"))
  ∧ Segment.end_ (Segment.mk 0 (5 # 10) (Some ["hello"; "there"; "friend"]) 0 "hello"
                    (Some "hello there friend"))
    = Segment.start (Segment.mk (5 # 10) (12 # 10) (Some ["there"; "friend"]) 0 "there"
                       (Some "there friend")).
Proof.
  split; [reflexivity|]. split; [reflexivity|]. split; [reflexivity|].
  exact (segments_contiguous example_words 3 example_segments 0 _ _
           eq_refl eq_refl eq_refl).
Defined.

(** ** The Style Model *)

Lemma string_length_6 (s : string) :
  String.length s = 6%nat →
  ∃ c1 c2 c3 c4 c5 c6,
    s = String c1 (String c2 (String c3 (String c4 (String c5 (String c6 ""))))).
Proof.
  intros H.
  do 6 (destruct s as [|? s]; [discriminate H|]).
  destruct s; [|discriminate H]. by repeat eexists.
Qed.

Lemma hex_digit_not_hash (c : ascii) : is_hex_digit c = true → c ≠ "#"%char.
Proof. intros H ->. discriminate H. Qed.

Lemma startswith_hash_cons (c : ascii) (s : string) :
  c ≠ "#"%char → Py.startswith "#" (String c s) = false.
Proof.
  intros Hc. unfold Py.startswith.
  change (String.prefix "#" (String c s))
    with (if ascii_dec "#" c then String.prefix "" s else false).
  destruct (ascii_dec "#" c) as [E|_]; [by destruct Hc|done].
Qed.

Lemma substring_all (s : string) : substring 0 (String.length s) s = s.
Proof. induction s as [|c s IH]; [done|]. simpl. by rewrite IH. Qed.

Lemma prefix_empty (s : string) : String.prefix "" s = true.
Proof. by destruct s. Qed.

Lemma strip_hash_hash (s : string) : strip_hash (String "#" s) = s.
Proof.
  unfold strip_hash, Py.startswith, Py.slice.
  change (String.prefix "#" (String "#" s)) with (String.prefix "" s).
  rewrite prefix_empty.
  change (substring 1 (String.length (String "#" s) - 1) (String "#" s))
    with (substring 0 (String.length s - 0) s).
  rewrite Nat.sub_0_r. apply substring_all.
Qed.

Lemma strip_hash_hex6 (s : string) : hex6 s → strip_hash s = s.
Proof.
  intros [Hlen Hhex].
  destruct (string_length_6 s Hlen) as (c1 & c2 & c3 & c4 & c5 & c6 & ->).
  unfold strip_hash. rewrite startswith_hash_cons; [done|].
  apply hex_digit_not_hash. simpl in Hhex. by apply andb_prop in Hhex as [? _].
Qed.

(** The two converters on a six-character body: the three pairs are swapped
    and swapped back, then upper-cased. *)
Lemma convert_roundtrip_body (c1 c2 c3 c4 c5 c6 : ascii) :
  let s := String c1 (String c2 (String c3 (String c4 (String c5 (String c6 ""))))) in
  convert_ass_to_hex_color
    ("&H" +:+ Py.slice 4 6 s +:+ Py.slice 2 4 s +:+ Py.slice 0 2 s)
  = String "#" (Py.upper s).
Proof. reflexivity. Qed.

(** C5. For a well-formed six-digit colour, written with or without the
    leading ['#'] and in either letter case, converting to the packed
    encoding and back gives ['#'] followed by the digits in upper case. *)
Theorem hex_color_roundtrip (s : string) :
  hex6 s →
  convert_ass_to_hex_color (convert_hex_to_ass_color s) = "#" +:+ Py.upper s
  ∧ convert_ass_to_hex_color (convert_hex_to_ass_color ("#" +:+ s))
    = "#" +:+ Py.upper s.
Proof.
  intros Hs.
  assert (convert_hex_to_ass_color ("#" +:+ s) = convert_hex_to_ass_color s) as ->.
  { unfold convert_hex_to_ass_color. change ("#" +:+ s) with (String "#" s).
    by rewrite strip_hash_hash, strip_hash_hex6. }
  apply and_wlog_l; [done|].
  unfold convert_hex_to_ass_color. rewrite strip_hash_hex6 by done.
  destruct Hs as [Hlen _].
  destruct (string_length_6 s Hlen) as (c1 & c2 & c3 & c4 & c5 & c6 & ->).
  apply convert_roundtrip_body.
Qed.

Lemma hex_color_roundtrip_witness :
  hex6 "aaBbcc"
  ∧ convert_ass_to_hex_color (convert_hex_to_ass_color "aaBbcc") = "#AABBCC"
  ∧ convert_ass_to_hex_color (convert_hex_to_ass_color "#aaBbcc") = "#AABBCC".
Proof.
  split; [by split|]. apply (hex_color_roundtrip "aaBbcc"). by split.
Defined.

(** The fallback of [convert_hex_to_ass_color] is decided by the length of
    the body alone. *)
Lemma convert_hex_length_6 (s : string) :
  String.length (strip_hash s) = 6%nat →
  convert_hex_to_ass_color s
  = "&H" +:+ Py.slice 4 6 (strip_hash s) +:+ Py.slice 2 4 (strip_hash s)
      +:+ Py.slice 0 2 (strip_hash s).
Proof. intros H. unfold convert_hex_to_ass_color. by rewrite H. Qed.

(** C7, as the code has it. When the input, after one leading ['#'] is
    dropped, is not six characters long, the conversion returns the default
    white ["&Hffffff"]; it never fails. *)
Theorem convert_hex_wrong_length_white (s : string) :
  String.length (strip_hash s) ≠ 6%nat →
  convert_hex_to_ass_color s = "&Hffffff".
Proof.
  intros H. unfold convert_hex_to_ass_color.
  by destruct (Nat.eqb_spec (String.length (strip_hash s)) 6).
Qed.

Lemma convert_hex_wrong_length_white_witness :
  String.length (strip_hash "#fff") ≠ 6%nat
  ∧ convert_hex_to_ass_color "#fff" = "&Hffffff".
Proof.
  split; [discriminate|].
  apply (convert_hex_wrong_length_white "#fff"). discriminate.
Defined.

(** C7, as stated, fails: six characters that are not hexadecimal digits are
    not a well-formed colour, yet they are rearranged instead of replaced by
    white. *)
Lemma convert_hex_malformed_not_white :
  ¬ (∀ s : string, ¬ well_formed_hex s → convert_hex_to_ass_color s = "&Hffffff").
Proof.
  intros H. specialize (H "GGGGGG").
  assert (convert_hex_to_ass_color "GGGGGG" = "&HGGGGGG") as E by reflexivity.
  rewrite E in H. enough ("&HGGGGGG" = "&Hffffff") by discriminate.
  apply H. intros [_ Hhex]. discriminate Hhex.
Qed.

(** The names [list_presets] returns are the keys of the preset dict. *)
Lemma list_presets_keys :
  StylePresets.list_presets ≡ₚ (map_to_list StylePresets.presets).*1.
Proof.
  apply NoDup_Permutation.
  - apply (bool_decide_unpack _). by vm_compute.
  - apply NoDup_fst_map_to_list.
  - intros name. rewrite list_elem_of_fmap. split.
    + intros Hin.
      assert (is_Some (StylePresets.presets !! name)) as [cfg Hcfg].
      { unfold StylePresets.list_presets in Hin.
        repeat (apply elem_of_cons in Hin as [->|Hin]; [by eexists|]).
        by apply elem_of_nil in Hin. }
      exists (name, cfg). split; [done|]. by apply elem_of_map_to_list.
    + intros ([name' cfg] & -> & Hin). apply elem_of_map_to_list in Hin. simpl.
      unfold StylePresets.presets in Hin.
      apply elem_of_list_to_map_2 in Hin.
      unfold StylePresets.list_presets.
      repeat (apply elem_of_cons in Hin as [Hin|Hin];
              [injection Hin as -> _; apply list_elem_of_In; simpl; tauto|]).
      by apply elem_of_nil in Hin.
Qed.

Example instagram_classic_is_default :
  StylePresets.instagram_classic = StyleConfig_default.
Proof. reflexivity. Qed.

Lemma presets_lookup_unknown (name : string) :
  name ∉ StylePresets.list_presets → StylePresets.presets !! name = None.
Proof.
  intros Hnot. unfold StylePresets.presets.
  by apply not_elem_of_list_to_map_1.
Qed.

Lemma presets_lookup_default :
  StylePresets.presets !! "instagram_classic" = Some StylePresets.instagram_classic.
Proof. reflexivity. Qed.

(** C8. [get_preset] returns a configuration for every string, and for a
    string that is not a preset name it returns the configuration of
    ["instagram_classic"]. *)
Theorem get_preset_fallback (name : string) :
  is_Some (StylePresets.get_preset name)
  ∧ (name ∉ StylePresets.list_presets →
     StylePresets.get_preset name = StylePresets.get_preset "instagram_classic").
Proof.
  unfold StylePresets.get_preset. rewrite presets_lookup_default. simpl. split.
  - eauto.
  - intros Hnot. by rewrite presets_lookup_unknown.
Qed.

Lemma get_preset_fallback_witness :
("nonexistent_name" ∉ StylePresets.list_presets)
  ∧ StylePresets.get_preset "nonexistent_name" = Some StylePresets.instagram_classic.
Proof.
  assert ("nonexistent_name" ∉ StylePresets.list_presets) as Hnot.
  { intros Hin. unfold StylePresets.list_presets in Hin.
    repeat (apply elem_of_cons in Hin as [Hin|Hin]; [discriminate Hin|]).
    by apply elem_of_nil in Hin. }
  split; [exact Hnot|].
  rewrite (proj2 (get_preset_fallback "nonexistent_name") Hnot). reflexivity.
Defined.

(** ** The Subtitle Compiler *)

(** C10. For a segment whose ["words"] entry is empty or absent, and for
    every style, the styled text is the segment's ["display_text"] as it
    is (the empty string when that entry is absent too): no markup is
    added. *)
Theorem styled_text_without_words (segment : Segment.t) (style : StyleConfig) :
  Segment.words segment = None ∨ Segment.words segment = Some [] →
  ASSRenderer._create_styled_text segment style
  = default "" (Segment.display_text segment).
Proof.
  intros [H|H]; unfold ASSRenderer._create_styled_text; by rewrite H.
Qed.

Lemma styled_text_without_words_witness :
  (Segment.words (Segment.mk 0 1 None 0 "" (Some "plain text")) = None
   ∨ Segment.words (Segment.mk 0 1 None 0 "" (Some "plain text")) = Some [])
  ∧ ASSRenderer._create_styled_text
      (Segment.mk 0 1 None 0 "" (Some "plain text")) StylePresets.gaming
    = "plain text".
Proof.
  split; [by left|].
  apply (styled_text_without_words
           (Segment.mk 0 1 None 0 "" (Some "plain text")) StylePresets.gaming).
  by left.
Defined.

(** *** Time encoding *)

Section time_arith.







End time_arith.

Lemma string_length_app (s1 s2 : string) :
  String.length (s1 +:+ s2) = (String.length s1 + String.length s2)%nat.
Proof. induction s1 as [|c s1 IH]; simpl; [done|]. by rewrite IH. Qed.

Lemma fixed_digits_length (width : nat) (n : Z) :
  String.length (fixed_digits width n) = width.
Proof.
  revert n. induction width as [|w IH]; intros n; simpl; [done|].
  rewrite string_length_app, IH. simpl. lia.
Qed.




Section time_fields.

Variable seconds : Q.
Hypothesis seconds_nonneg : (0 <= seconds)%Q.









End time_fields.



(** CPython's floor division and remainder on floats, on known cases:
    [-7.5 // 2 == -4.0], [-7.5 % 2 == 0.5] and [7.5 // 2 == 3.0]. *)
Example binary64_floordiv_mod :
  Binary64.floordiv (Binary64.literal (-75 # 10)) (Binary64.of_int 2)
  = Some (Binary64.of_int (-4))
  ∧ Binary64.mod_ (Binary64.literal (-75 # 10)) (Binary64.of_int 2)
    = Some (Binary64.literal (5 # 10))
  ∧ Binary64.floordiv (Binary64.literal (75 # 10)) (Binary64.of_int 2)
    = Some (Binary64.of_int 3).
Proof. by vm_compute. Qed.

(** The examples of the specification, run on binary64 numbers: the doubles
    that the literals [0] and [3725.456] denote are encoded as stated. *)
Example time_encoding_binary64 :
  Binary64._seconds_to_ass_time (Binary64.of_int 0) = Some "0:00:00.00"
  ∧ Binary64.seconds_to_srt_time (Binary64.of_int 0) = Some "00:00:00,000"
  ∧ Binary64._seconds_to_ass_time (Binary64.literal (3725456 # 1000))
    = Some "1:02:05.45"
  ∧ Binary64.seconds_to_srt_time (Binary64.literal (3725456 # 1000))
    = Some "01:02:05,456".
Proof. by vm_compute. Qed.

(** The double that [3725.456] denotes is [8192364381535732 * 2^-41]; the
    exact model encodes that number in the same way. *)
Example time_encoding_double_value :
  Binary64.literal (3725456 # 1000) = S754_finite false 8192364381535732 (-41)
  ∧ ASSRenderer._seconds_to_ass_time (8192364381535732 # 2 ^ 41) = "1:02:05.45"
  ∧ VideoProcessor.seconds_to_srt_time (8192364381535732 # 2 ^ 41) = "01:02:05,456".
Proof. by vm_compute. Qed.

(** *** Lines of the markup *)

Lemma app_String (c : ascii) (s t : string) : String c s +:+ t = String c (s +:+ t).
Proof. reflexivity. Qed.

Lemma app_empty (t : string) : "" +:+ t = t.
Proof. reflexivity. Qed.

Lemma string_app_assoc (s1 s2 s3 : string) : (s1 +:+ s2) +:+ s3 = s1 +:+ s2 +:+ s3.
Proof.
  induction s1 as [|c s1 IH]; [done|]. by rewrite !app_String, IH.
Qed.

Lemma no_nl_app (s t : string) : no_nl (s +:+ t) = no_nl s && no_nl t.
Proof.
  induction s as [|c s IH]; [done|].
  rewrite app_String. simpl. by rewrite IH, andb_assoc.
Qed.

Lemma split_nl_app (s t : string) :
  no_nl s = true → Py.split_nl (s +:+ Py.NL +:+ t) = s :: Py.split_nl t.
Proof.
  induction s as [|c s IH]; intros H.
  - rewrite app_empty. unfold Py.NL. rewrite app_String, app_empty. done.
  - simpl in H. apply andb_prop in H as [Hc Hs]. apply negb_true_iff in Hc.
    rewrite app_String. simpl. rewrite Hc. by rewrite IH.
Qed.

Lemma split_nl_no_nl (s : string) : no_nl s = true → Py.split_nl s = [s].
Proof.
  induction s as [|c s IH]; simpl; intros H; [done|].
  apply andb_prop in H as [Hc Hs]. apply negb_true_iff in Hc. rewrite Hc.
  by rewrite IH.
Qed.

Lemma split_nl_join (ls : list string) :
  ls ≠ [] → Forall (λ l, no_nl l = true) ls →
  Py.split_nl (Py.join Py.NL ls) = ls.
Proof.
  intros Hne Hall. induction Hall as [|l ls Hl Hall IH]; [done|].
  destruct ls as [|l' ls].
  - change (Py.join Py.NL [l]) with l. by apply split_nl_no_nl.
  - change (Py.join Py.NL (l :: l' :: ls)) with (l +:+ Py.NL +:+ Py.join Py.NL (l' :: ls)).
    rewrite split_nl_app by done. by rewrite IH.
Qed.

Lemma no_nl_string_of_uint (d : Decimal.uint) :
  no_nl (NilEmpty.string_of_uint d) = true.
Proof. induction d; simpl; done. Qed.

Lemma no_nl_str (z : Z) : no_nl (Py.str z) = true.
Proof.
  unfold Py.str, NilZero.string_of_int, NilZero.string_of_uint.
  destruct (Z.to_int z) as [d|d]; destruct d; simpl; try done;
    apply no_nl_string_of_uint.
Qed.

Lemma no_nl_zeros (n : nat) : no_nl (Py.zeros n) = true.
Proof. induction n; simpl; done. Qed.

Lemma no_nl_fmt0 (w : nat) (z : Z) : no_nl (Py.fmt0 w z) = true.
Proof.
  unfold Py.fmt0. destruct (z <? 0); rewrite ?no_nl_app, ?no_nl_zeros, ?no_nl_str; done.
Qed.

Create Rewrite HintDb no_nl.
#[local] Hint Rewrite no_nl_app no_nl_str no_nl_zeros no_nl_fmt0 : no_nl.

Lemma no_nl_seconds_to_ass_time (seconds : Q) :
  no_nl (ASSRenderer._seconds_to_ass_time seconds) = true.
Proof.
  unfold ASSRenderer._seconds_to_ass_time. cbv zeta.
  by autorewrite with no_nl.
Qed.

Section lines.
Import ASSRenderer.

Variable style : StyleConfig.
Hypothesis style_ok : style_no_nl style = true.

Lemma style_no_nl_fields :
  no_nl (font_family style) = true ∧ no_nl (base_color style) = true
  ∧ no_nl (highlight_color style) = true ∧ no_nl (outline_color style) = true
  ∧ no_nl (background_color style) = true.
Proof.
  unfold style_no_nl in style_ok.
  repeat (apply andb_prop in style_ok as [style_ok ?]). done.
Qed.

Lemma no_nl_back_colour : no_nl (back_colour style) = true.
Proof.
  destruct style_no_nl_fields as (_ & _ & _ & _ & H).
  unfold back_colour. by destruct (background_enabled style).
Qed.

(** A concatenation of style strings, numbers and literals is one line. *)
Ltac no_nl_solve :=
  destruct style_no_nl_fields as (Hf & Hb & Hh & Ho & Hg);
  pose proof no_nl_back_colour as Hbc;
  autorewrite with no_nl;
  rewrite ?Hf, ?Hb, ?Hh, ?Ho, ?Hg, ?Hbc; reflexivity.

Lemma no_nl_title_line : no_nl (title_line style) = true.
Proof. unfold title_line. no_nl_solve. Qed.

Lemma no_nl_default_style_line fs ms mb :
  no_nl (default_style_line fs ms mb style) = true.
Proof. unfold default_style_line. no_nl_solve. Qed.

Lemma no_nl_highlight_style_line fs ms mb :
  no_nl (highlight_style_line fs ms mb style) = true.
Proof. unfold highlight_style_line. no_nl_solve. Qed.

Lemma no_nl_fallback_style_line fs mb :
  no_nl (fallback_style_line fs mb style) = true.
Proof. unfold fallback_style_line. no_nl_solve. Qed.

Lemma no_nl_highlight_first (word : string) :
  no_nl word = true → no_nl (highlight_first style word) = true.
Proof.
  intros Hw. unfold highlight_first, color_change_markup.
  repeat case_match; autorewrite with no_nl; rewrite ?Hw; no_nl_solve.
Qed.
End lines.

Section styled_text.
Import ASSRenderer.

Variable style : StyleConfig.

(** After the first word, the loop copies the words. *)
Lemma styled_loop_rest (i : nat) (words acc : list string) :
  styled_loop style (S i) words acc = acc ++ words.
Proof.
  revert i acc. induction words as [|w ws IH]; intros i acc; simpl.
  - by rewrite app_nil_r.
  - rewrite IH. by rewrite <- app_assoc.
Qed.

Lemma styled_loop_first (word : string) (rest : list string) :
  styled_loop style 0 (word :: rest) [] = highlight_first style word :: rest.
Proof. simpl. by rewrite styled_loop_rest. Qed.

Lemma create_styled_text_words (segment : Segment.t) (word : string) (rest : list string) :
  Segment.words segment = Some (word :: rest) →
  _create_styled_text segment style
  = Py.join " " (highlight_first style word :: rest).
Proof.
  intros H. unfold _create_styled_text. rewrite H. simpl default.
  by rewrite styled_loop_first.
Qed.

Lemma no_nl_join_space (ls : list string) :
  forallb no_nl ls = true → no_nl (Py.join " " ls) = true.
Proof.
  induction ls as [|l ls IH]; [done|]. intros H.
  simpl in H. apply andb_prop in H as [Hl Hls].
  destruct ls as [|l' ls]; [done|].
  change (Py.join " " (l :: l' :: ls)) with (l +:+ " " +:+ Py.join " " (l' :: ls)).
  rewrite !no_nl_app, Hl, IH; done.
Qed.

Hypothesis style_ok : style_no_nl style = true.

Lemma no_nl_create_styled_text (segment : Segment.t) :
  segment_no_nl segment = true →
  no_nl (_create_styled_text segment style) = true.
Proof.
  unfold segment_no_nl. intros H. apply andb_prop in H as [Hw Hd].
  destruct (Segment.words segment) as [[|word rest]|] eqn:E.
  - unfold _create_styled_text. by rewrite E.
  - rewrite (create_styled_text_words segment word rest E).
    apply no_nl_join_space. simpl in Hw. apply andb_prop in Hw as [Hw1 Hw2].
    simpl. by rewrite no_nl_highlight_first.
  - unfold _create_styled_text. by rewrite E.
Qed.

Lemma no_nl_dialogue_line (segment : Segment.t) :
  segment_no_nl segment = true →
  no_nl (dialogue_line style segment) = true.
Proof.
  intros H. unfold dialogue_line. cbv zeta.
  by rewrite !no_nl_app, !no_nl_seconds_to_ass_time, no_nl_create_styled_text.
Qed.

Lemma split_nl_header (fs ms mb : Z) (rest : string) :
  Py.split_nl (_generate_header fs ms mb style +:+ rest)
  = header_lines fs ms mb style ++ Py.split_nl rest.
Proof.
  unfold _generate_header. rewrite !string_app_assoc.
  rewrite !split_nl_app;
    auto using no_nl_title_line, no_nl_default_style_line,
      no_nl_highlight_style_line.
Qed.

Lemma split_nl_content (segments : list Segment.t) (width height : Z) :
  segments ≠ [] →
  Forall (λ s, segment_no_nl s = true) segments →
  ∃ fs mb,
    Py.split_nl (_generate_ass_content segments width height style)
    = header_lines fs 20 mb style ++ (dialogue_line style <$> segments).
Proof.
  intros Hne Hall. unfold _generate_ass_content. cbv zeta.
  eexists _, _. rewrite split_nl_header. f_equal.
  apply split_nl_join.
  - by destruct segments.
  - apply Forall_fmap. eapply Forall_impl; [exact Hall|].
    intros s Hs. by apply no_nl_dialogue_line.
Qed.

Lemma split_nl_fallback (width height : Z) :
  ∃ fs mb,
    Py.split_nl (_generate_empty_ass_file style width height)
    = fallback_lines fs mb style.
Proof.
  unfold _generate_empty_ass_file. cbv zeta. eexists _, _.
  rewrite !split_nl_app; auto using no_nl_fallback_style_line.
Qed.

End styled_text.

(** *** Style records and events of the compiled text *)

Section records.
Import ASSRenderer.

Variable style : StyleConfig.

Lemma header_style_records (fs ms mb : Z) :
  List.filter is_style_record (header_lines fs ms mb style)
  = [default_style_line fs ms mb style; highlight_style_line fs ms mb style].
Proof. reflexivity. Qed.

Lemma header_no_event (fs ms mb : Z) :
  List.filter is_event (header_lines fs ms mb style) = [].
Proof. reflexivity. Qed.

Lemma record_name_default (fs ms mb : Z) :
  record_name (default_style_line fs ms mb style) = "Default".
Proof. reflexivity. Qed.

Lemma record_name_highlight (fs ms mb : Z) :
  record_name (highlight_style_line fs ms mb style) = "Highlight".
Proof. reflexivity. Qed.

Lemma record_name_fallback (fs mb : Z) :
  record_name (fallback_style_line fs mb style) = "Default".
Proof. reflexivity. Qed.

Lemma fallback_style_records (fs mb : Z) :
  List.filter is_style_record (fallback_lines fs mb style)
  = [fallback_style_line fs mb style].
Proof. reflexivity. Qed.

Lemma fallback_events (fs mb : Z) :
  List.filter is_event (fallback_lines fs mb style) = [placeholder_event].
Proof. reflexivity. Qed.

Lemma is_event_dialogue_line (segment : Segment.t) :
  is_event (dialogue_line style segment) = true.
Proof. reflexivity. Qed.

Lemma is_style_record_dialogue_line (segment : Segment.t) :
  is_style_record (dialogue_line style segment) = false.
Proof. reflexivity. Qed.

Lemma dialogue_lines_events (segments : list Segment.t) :
  List.filter is_event (dialogue_line style <$> segments)
  = dialogue_line style <$> segments.
Proof.
  induction segments as [|s segs IH]; [done|].
  rewrite fmap_cons. simpl List.filter.
  by rewrite ?is_event_dialogue_line, IH.
Qed.

Lemma dialogue_lines_no_style_record (segments : list Segment.t) :
  List.filter is_style_record (dialogue_line style <$> segments) = [].
Proof.
  induction segments as [|s segs IH]; [done|].
  rewrite fmap_cons. simpl List.filter.
  by rewrite ?is_style_record_dialogue_line, IH.
Qed.

End records.

Lemma render_subtitles_written (job_id : string) (segments : list Segment.t)
    (width height : Z) (style : StyleConfig) (fs : gmap string string) :
  (ASSRenderer.render_subtitles job_id segments width height style fs).2
    !! (ASSRenderer.render_subtitles job_id segments width height style fs).1
  = Some (match segments with
          | [] => ASSRenderer._generate_empty_ass_file style width height
          | _ => ASSRenderer._generate_ass_content segments width height style
          end).
Proof. unfold ASSRenderer.render_subtitles. simpl. apply lookup_insert_eq. Qed.

(** C3, as the code has it. The markup written for a non-empty segment
    sequence (with single-line style strings and word texts) is a header with
    exactly two style records, named "Default" and "Highlight", followed by
    one event line per segment, in order. For the empty sequence the header
    has the single style record "Default" and is followed by the one
    placeholder event. *)
Theorem compiled_markup_structure (job_id : string) (segments : list Segment.t)
    (width height : Z) (style : StyleConfig) (fs : gmap string string) :
  style_no_nl style = true →
  Forall (λ s, segment_no_nl s = true) segments →
  ∃ text,
    (ASSRenderer.render_subtitles job_id segments width height style fs).2
      !! (ASSRenderer.render_subtitles job_id segments width height style fs).1
    = Some text
    ∧ (segments ≠ [] →
       ∃ header,
         Py.split_nl text = header ++ (ASSRenderer.dialogue_line style <$> segments)
         ∧ record_name <$> List.filter is_style_record header = ["Default"; "Highlight"]
         ∧ List.filter is_event header = []
         ∧ record_name <$> style_records text = ["Default"; "Highlight"]
         ∧ event_lines text = ASSRenderer.dialogue_line style <$> segments)
    ∧ (segments = [] →
       record_name <$> style_records text = ["Default"]
       ∧ event_lines text = [ASSRenderer.placeholder_event]).
Proof.
  intros Hstyle Hsegs. eexists. split; [apply render_subtitles_written|]. split.
  - intros Hne.
    destruct (split_nl_content style Hstyle segments width height Hne Hsegs)
      as (fsz & mb & Hsplit).
    destruct segments as [|s segs]; [done|].
    exists (header_lines fsz 20 mb style).
    unfold style_records, event_lines. rewrite Hsplit, !List.filter_app.
    rewrite header_style_records, header_no_event.
    rewrite dialogue_lines_events, dialogue_lines_no_style_record.
    by rewrite app_nil_r.
  - intros ->.
    destruct (split_nl_fallback style Hstyle width height) as (fsz & mb & Hsplit).
    unfold style_records, event_lines. rewrite Hsplit.
    by rewrite fallback_style_records, fallback_events.
Qed.

Lemma compiled_markup_structure_witness :
  style_no_nl StylePresets.minimalist = true
  ∧ Forall (λ s, segment_no_nl s = true) example_segments
  ∧ ∃ text,
      (ASSRenderer.render_subtitles "job" example_segments 1920 1080
         StylePresets.minimalist ∅).2 !! "/tmp/subtitles_job.ass" = Some text
      ∧ record_name <$> style_records text = ["Default"; "Highlight"]
      ∧ event_lines text
        = ASSRenderer.dialogue_line StylePresets.minimalist <$> example_segments.
Proof.
  assert (Forall (λ s, segment_no_nl s = true) example_segments) as Hsegs.
  { repeat constructor. }
  split; [reflexivity|]. split; [exact Hsegs|].
  destruct (compiled_markup_structure "job" example_segments 1920 1080
              StylePresets.minimalist ∅ eq_refl Hsegs) as (text & Htext & Hne & _).
  exists text. split; [exact Htext|].
  destruct Hne as (header & _ & _ & _ & Hrec & Hev); [discriminate|].
  by split.
Defined.

(** Why the style strings must be single lines: a font family with a line
    break in it adds lines that read as style records. *)
Example style_record_injected :
  record_name <$> style_records
    (ASSRenderer._generate_ass_content example_segments 1920 1080
       {| font_family := "Arial" +:+ Py.NL +:+ "Style: Extra,Arial";
          font_size_ratio := 5 # 100; font_weight := "bold";
          base_color := "&Hffffff"; highlight_color := "&H00d7ff";
          outline_color := "&H000000"; highlight_style := "color_change";
          outline_width := 2; glow_enabled := false; glow_intensity := "none";
          words_per_line := 3; position := "bottom"; alignment := 2;
          margin_ratio := 8 # 100; background_enabled := false;
          background_color := "&H80000000"; background_opacity := 80 |})
  = ["Extra"; "Default"; "Extra"; "Highlight"; "Extra"].
Proof. by vm_compute. Qed.

(** C3, as stated, fails on the empty segment sequence: the fallback file
    has one style record, not two. *)
Lemma empty_markup_has_one_style_record :
  ¬ (∀ (segments : list Segment.t) (width height : Z) (style : StyleConfig),
       style_no_nl style = true →
       Forall (λ s, segment_no_nl s = true) segments →
       ∀ text,
         (ASSRenderer.render_subtitles "job" segments width height style ∅).2
           !! "/tmp/subtitles_job.ass" = Some text →
         record_name <$> style_records text = ["Default"; "Highlight"]
         ∧ length (event_lines text) = length segments).
Proof.
  intros H.
  destruct (H [] 1920 1080 StylePresets.instagram_classic eq_refl (Forall_nil_2 _)
              (ASSRenderer._generate_empty_ass_file StylePresets.instagram_classic 1920 1080))
    as [Hrec _].
  - apply (render_subtitles_written "job" [] 1920 1080 StylePresets.instagram_classic ∅).
  - vm_compute in Hrec. discriminate Hrec.
Qed.

(** *** The fallback for an empty transcript *)

Lemma app_empty_r (s : string) : s +:+ "" = s.
Proof. induction s as [|c s IH]; [done|]. by rewrite app_String, IH. Qed.

Lemma join_cons (sep x : string) (xs : list string) :
  Py.join sep (x :: xs)
  = x +:+ match xs with [] => "" | _ => sep +:+ Py.join sep xs end.
Proof. destruct xs; [|done]. by rewrite app_empty_r. Qed.




(** *** Responsive sizes *)


Lemma styles_format_line_names :
  ASSRenderer.styles_format_line = "Format: " +:+ Py.join ", " styles_format_names.
Proof. reflexivity. Qed.




Section record_fields.

Variable font_size margin_bottom : Z.
Variable style : StyleConfig.




End record_fields.



Example font_size_720_tiktok :
  Py.int (inject_Z 720 * font_size_ratio StylePresets.tiktok_viral) = 39
  ∧ round_half_even (inject_Z 720 * font_size_ratio StylePresets.tiktok_viral) = 40
  ∧ record_field "Fontsize"
      (default_record_fields
         (Z.max (Py.int (inject_Z 720 * font_size_ratio StylePresets.tiktok_viral)) 16)
         20 50 StylePresets.tiktok_viral)
    = Some "39".
Proof. by vm_compute. Qed.

(** The same input on binary64 numbers: [720 * 0.055] is truncated to 39. *)
Example font_size_720_tiktok_binary64 :
  Binary64.responsive_size 720 (Binary64.literal (55 # 1000)) 16 = Some 39.
Proof. by vm_compute. Qed.

(** * Further properties of the code *)

(** ** The Style Model, continued *)

(** X1. Whatever the input, [convert_hex_to_ass_color] returns a string of
    eight characters that starts with ["&H"]. *)
Theorem convert_hex_shape (s : string) :
  String.length (convert_hex_to_ass_color s) = 8%nat
  ∧ Py.startswith "&H" (convert_hex_to_ass_color s) = true.
Proof.
  unfold convert_hex_to_ass_color.
  destruct (Nat.eqb_spec (String.length (strip_hash s)) 6) as [Hlen|_]; [|done].
  by destruct (string_length_6 _ Hlen) as (c1 & c2 & c3 & c4 & c5 & c6 & ->).
Qed.

(** The packed-to-hex converter on a packed colour with a tail. *)
Lemma convert_ass_body (c1 c2 c3 c4 c5 c6 : ascii) (tail : string) :
  convert_ass_to_hex_color
    ("&H" +:+ String c1 (String c2 (String c3 (String c4 (String c5 (String c6 tail))))))
  = Py.upper
      (String "#" (String c5 (String c6 (String c3 (String c4 (String c1 (String c2 ""))))))).
Proof. by destruct tail. Qed.

Lemma upper_char_hex (c : ascii) :
  is_hex_digit c = true → is_hex_digit (Py.upper_char c) = true.
Proof.
  destruct c as [[] [] [] [] [] [] [] []]; intros H; try discriminate H; reflexivity.
Qed.

(** X2. Packed to hex and back: for ["&H"], six hexadecimal digits and any
    tail, the two conversions give ["&H"] and the six digits in upper case;
    the tail is dropped. *)
Theorem packed_color_roundtrip (body tail : string) :
  hex6 body →
  convert_hex_to_ass_color (convert_ass_to_hex_color ("&H" +:+ body +:+ tail))
  = "&H" +:+ Py.upper body.
Proof.
  intros [Hlen Hhex].
  destruct (string_length_6 body Hlen) as (c1 & c2 & c3 & c4 & c5 & c6 & ->).
  change ("&H" +:+ String c1 (String c2 (String c3 (String c4 (String c5 (String c6 ""))))) +:+ tail)
    with ("&H" +:+ String c1 (String c2 (String c3 (String c4 (String c5 (String c6 tail)))))).
  rewrite convert_ass_body.
  unfold convert_hex_to_ass_color.
  change (Py.upper (String "#" ?x)) with (String "#" (Py.upper x)).
  by rewrite strip_hash_hash.
Qed.

Lemma packed_color_roundtrip_witness :
  hex6 "00d7ff"
  ∧ convert_hex_to_ass_color (convert_ass_to_hex_color "&H00d7ff80") = "&H00D7FF".
Proof.
  split; [by split|]. apply (packed_color_roundtrip "00d7ff" "80"). by split.
Defined.

(** A key is bound in a dict literal exactly when it is among its keys. *)
Lemma list_to_map_is_Some {A} (l : list (string * A)) (k : string) :
  is_Some ((list_to_map l : gmap string A) !! k) ↔ k ∈ l.*1.
Proof.
  split.
  - intros [v Hv]. apply elem_of_list_to_map_2 in Hv.
    apply list_elem_of_fmap. by exists (k, v).
  - intros Hin. destruct (list_to_map l !! k) as [v|] eqn:E; [by eexists|].
    by apply not_elem_of_list_to_map in E.
Qed.

(** X3. The three views of the preset catalogue agree: a name is listed by
    [list_presets] exactly when [get_preset]'s table has a configuration for
    it, and exactly when [get_preset_info] describes it. *)
Theorem preset_catalogue_consistent (name : string) :
  (name ∈ StylePresets.list_presets ↔ is_Some (StylePresets.presets !! name))
  ∧ (name ∈ StylePresets.list_presets ↔ is_Some (get_preset_info !! name)).
Proof.
  unfold StylePresets.presets, get_preset_info.
  rewrite !list_to_map_is_Some. done.
Qed.

(** The selection of [upload_video] keeps a listed name. *)
Lemma upload_style_preset_listed (name : string) :
  name ∈ StylePresets.list_presets → upload_style_preset name = name.
Proof. intros H. unfold upload_style_preset. by rewrite bool_decide_eq_true_2. Qed.

Lemma upload_style_preset_unlisted (name : string) :
  name ∉ StylePresets.list_presets → upload_style_preset name = "instagram_classic".
Proof. intros H. unfold upload_style_preset. by rewrite bool_decide_eq_false_2. Qed.

Lemma instagram_classic_listed : "instagram_classic" ∈ StylePresets.list_presets.
Proof. apply (bool_decide_unpack _). by vm_compute. Qed.

(** X4. The style selection of the upload endpoint and the lookup of the
    processor agree: the name the endpoint passes on is always a listed one,
    a listed name is passed on as it is, and the configuration the processor
    then looks up is the one it would have found for the name as received. *)
Theorem upload_style_preset_sound (style_preset : string) :
  upload_style_preset style_preset ∈ StylePresets.list_presets
  ∧ (style_preset ∈ StylePresets.list_presets →
     upload_style_preset style_preset = style_preset)
  ∧ StylePresets.get_preset (upload_style_preset style_preset)
    = StylePresets.get_preset style_preset.
Proof.
  destruct (decide (style_preset ∈ StylePresets.list_presets)) as [Hin|Hnot].
  - by rewrite upload_style_preset_listed.
  - rewrite upload_style_preset_unlisted by done.
    split; [apply instagram_classic_listed|]. split; [done|].
    unfold StylePresets.get_preset. rewrite presets_lookup_default. simpl.
    by rewrite presets_lookup_unknown.
Qed.

Lemma upload_style_preset_sound_witness :
  "gaming" ∈ StylePresets.list_presets
  ∧ upload_style_preset "gaming" = "gaming".
Proof.
  assert ("gaming" ∈ StylePresets.list_presets) as Hin.
  { apply (bool_decide_unpack _). by vm_compute. }
  split; [exact Hin|].
  exact (proj1 (proj2 (upload_style_preset_sound "gaming")) Hin).
Defined.

(** Every configuration [get_preset] returns is one of the five presets. *)
Lemma get_preset_cases (name : string) (style : StyleConfig) :
  StylePresets.get_preset name = Some style →
  style ∈ [StylePresets.instagram_classic; StylePresets.tiktok_viral;
           StylePresets.youtube_professional; StylePresets.minimalist;
           StylePresets.gaming].
Proof.
  unfold StylePresets.get_preset. rewrite presets_lookup_default. simpl.
  destruct (StylePresets.presets !! name) as [cfg|] eqn:E; simpl; intros [= <-].
  - unfold StylePresets.presets in E. apply elem_of_list_to_map_2 in E.
    repeat (apply elem_of_cons in E as [E|E];
            [injection E as _ ->; apply list_elem_of_In; simpl; tauto|]).
    by apply elem_of_nil in E.
  - apply list_elem_of_here.
Qed.

(** X5. Whatever name is asked for, the configuration [get_preset] returns
    is fit for the renderer: its strings are single lines, its three colours
    are packed colours, its highlight style is one of the four the renderer
    tests for, a [glow_pulse] style has the glow enabled (so the renderer's
    two default branches are never taken for a preset), and its ratios and
    its group size are positive. *)
Theorem get_preset_well_formed (name : string) (style : StyleConfig) :
  StylePresets.get_preset name = Some style →
  style_no_nl style = true
  ∧ packed6 (base_color style) = true
  ∧ packed6 (highlight_color style) = true
  ∧ packed6 (outline_color style) = true
  ∧ highlight_style style ∈ handled_highlight_styles
  ∧ (highlight_style style = "glow_pulse" → glow_enabled style = true)
  ∧ (0 < font_size_ratio style)%Q ∧ (0 < margin_ratio style)%Q
  ∧ 0 < words_per_line style.
Proof.
  intros H. apply get_preset_cases in H.
  repeat (apply elem_of_cons in H as [->|H];
          [repeat split; try reflexivity; try discriminate;
           apply (bool_decide_unpack _); by vm_compute|]).
  by apply elem_of_nil in H.
Qed.

Lemma get_preset_well_formed_witness :
  StylePresets.get_preset "no such style" = Some StylePresets.instagram_classic
  ∧ packed6 (highlight_color StylePresets.instagram_classic) = true
  ∧ highlight_style StylePresets.instagram_classic ∈ handled_highlight_styles.
Proof.
  split; [reflexivity|].
  pose proof (get_preset_well_formed "no such style" StylePresets.instagram_classic
                eq_refl) as H.
  split; [apply H|apply H].
Defined.

(** ** The Word Grouper, continued *)

(** A loop over the indices of a list that never fails is an indexed map. *)
Lemma mapM_seq_imap {A B} (f : nat → option B) (g : nat → A → B) (l : list A) :
  (∀ i a, l !! i = Some a → f i = Some (g i a)) →
  mapM f (seq 0 (length l)) = Some (imap g l).
Proof.
  intros Hf. apply mapM_Some. apply Forall2_same_length_lookup_2.
  - by rewrite length_seq, length_imap.
  - intros i j b Hj Hb. apply lookup_seq in Hj as [-> Hi]. simpl.
    rewrite list_lookup_imap in Hb.
    destruct (l !! i) as [a|] eqn:Ha; [|done]. injection Hb as <-. by apply Hf.
Qed.

(** The grouper as an indexed map over the words. *)
Lemma create_word_groups_imap (words : list Word.t) (words_per_group : Z) :
  VideoProcessor.create_word_groups words words_per_group
  = Some (imap (λ i w, {|
      Segment.start := Word.start w;
      Segment.end_ :=
        match words !! (i + 1)%nat with
        | Some w' => Word.start w'
        | None => Word.end_ w
        end;
      Segment.words :=
        Some (Word.text <$> take (Z.to_nat words_per_group) (drop i words));
      Segment.current_word_index := 0;
      Segment.current_word :=
        default "" (head (Word.text <$> take (Z.to_nat words_per_group) (drop i words)));
      Segment.display_text :=
        Some (Py.join " " (Word.text <$> take (Z.to_nat words_per_group) (drop i words)))
    |}) words).
Proof.
  rewrite create_word_groups_mapM. apply mapM_seq_imap.
  intros i w Hw. by apply group_at_Some.
Qed.

(** X6. A group size of zero or less is not refused: the grouper still
    returns one segment per word, with the same times as for a positive
    size, but with no words, an empty highlighted word and an empty display
    text. *)
Theorem create_word_groups_nonpositive (words : list Word.t) (words_per_group : Z) :
  words_per_group ≤ 0 →
  VideoProcessor.create_word_groups words words_per_group
  = Some (imap (λ i w, {|
      Segment.start := Word.start w;
      Segment.end_ :=
        match words !! (i + 1)%nat with
        | Some w' => Word.start w'
        | None => Word.end_ w
        end;
      Segment.words := Some [];
      Segment.current_word_index := 0;
      Segment.current_word := "";
      Segment.display_text := Some ""
    |}) words).
Proof.
  intros Hn. rewrite create_word_groups_imap.
  by replace (Z.to_nat words_per_group) with 0%nat by lia.
Qed.

Lemma create_word_groups_nonpositive_witness :
  -1 ≤ 0
  ∧ VideoProcessor.create_word_groups example_words (-1)
    = Some [Segment.mk 0 (5 # 10) (Some []) 0 "" (Some "");
            Segment.mk (5 # 10) (12 # 10) (Some []) 0 "" (Some "");
            Segment.mk (12 # 10) (18 # 10) (Some []) 0 "" (Some "")].
Proof.
  split; [lia|]. apply (create_word_groups_nonpositive example_words (-1)). lia.
Defined.

(** X7. Every segment of the grouper's output, for any group size, carries
    a word list of [min(words_per_group, len(words) - i)] words, a display
    text that is these words joined by single spaces, the first of them (or
    the empty string) as highlighted word, and 0 as its index. *)
Theorem segment_invariants (words : list Word.t) (words_per_group : Z)
    (segments : list Segment.t) (i : nat) (s : Segment.t) :
  VideoProcessor.create_word_groups words words_per_group = Some segments →
  segments !! i = Some s →
  ∃ ws, Segment.words s = Some ws
    ∧ length ws = (Z.to_nat words_per_group `min` (length words - i))%nat
    ∧ Segment.display_text s = Some (Py.join " " ws)
    ∧ Segment.current_word s = default "" (head ws)
    ∧ Segment.current_word_index s = 0.
Proof.
  rewrite create_word_groups_imap. intros [= <-] Hs.
  rewrite list_lookup_imap in Hs.
  destruct (words !! i) as [w|] eqn:Hw; [|done]. injection Hs as <-. simpl.
  eexists. split; [done|]. split; [|done].
  by rewrite length_fmap, length_take, length_drop.
Qed.

Lemma segment_invariants_witness :
  VideoProcessor.create_word_groups example_words 3 = Some example_segments
  ∧ example_segments !! 1%nat
    = Some (Segment.mk (5 # 10) (12 # 10) (Some ["there"; "friend"]) 0 "there"
              (Some "there friend"))
  ∧ ∃ ws, Some ["there"; "friend"] = Some ws
      ∧ length ws = (3 `min` (3 - 1))%nat
      ∧ Some "there friend" = Some (Py.join " " ws)
      ∧ "there" = default "" (head ws)
      ∧ 0 = 0.
Proof.
  split; [reflexivity|]. split; [reflexivity|].
  exact (segment_invariants example_words 3 example_segments 1 _ eq_refl eq_refl).
Defined.

(** X8. The window slides by one word: the words of a segment after its
    first are the leading words of the next segment. *)
Theorem segments_share_words (words : list Word.t) (words_per_group : Z)
    (segments : list Segment.t) (i : nat) (s1 s2 : Segment.t)
    (ws1 ws2 : list string) :
  VideoProcessor.create_word_groups words words_per_group = Some segments →
  segments !! i = Some s1 →
  segments !! (i + 1)%nat = Some s2 →
  Segment.words s1 = Some ws1 →
  Segment.words s2 = Some ws2 →
  drop 1 ws1 = take (length ws1 - 1) ws2.
Proof.
  rewrite create_word_groups_imap. intros [= <-] H1 H2.
  rewrite list_lookup_imap in H1. rewrite list_lookup_imap in H2.
  destruct (words !! i) as [w|] eqn:Hw; [|done].
  destruct (words !! (i + 1)%nat) as [w'|] eqn:Hw'; [|done].
  injection H1 as <-. injection H2 as <-. simpl. intros [= <-] [= <-].
  rewrite length_fmap, <- !fmap_drop, <- !fmap_take. f_equal.
  rewrite (drop_S words w i Hw).
  replace (i + 1)%nat with (S i) by lia.
  destruct (Z.to_nat words_per_group) as [|k]; [done|]. simpl.
  rewrite drop_0, Nat.sub_0_r, take_take, length_take.
  destruct (decide (k ≤ length (drop (S i) words))%nat) as [Hk|Hk].
  - f_equal. lia.
  - by rewrite !take_ge by lia.
Qed.

Lemma segments_share_words_witness :
  VideoProcessor.create_word_groups example_words 3 = Some example_segments
  ∧ drop 1 ["hello"; "there"; "friend"]
    = take (length ["hello"; "there"; "friend"] - 1) ["there"; "friend"].
Proof.
  split; [reflexivity|].
  exact (segments_share_words example_words 3 example_segments 0 _ _ _ _
           eq_refl eq_refl eq_refl eq_refl eq_refl).
Defined.

(** X9. When the word onsets are in order and the last word does not end
    before it starts, no segment ends before it starts. Word end times other
    than the last one play no part. *)
Theorem segments_duration_nonneg (words : list Word.t) (words_per_group : Z)
    (segments : list Segment.t) :
  (∀ i w w', words !! i = Some w → words !! (i + 1)%nat = Some w' →
     (Word.start w <= Word.start w')%Q) →
  (∀ w, last words = Some w → (Word.start w <= Word.end_ w)%Q) →
  VideoProcessor.create_word_groups words words_per_group = Some segments →
  Forall (λ s, (Segment.start s <= Segment.end_ s)%Q) segments.
Proof.
  intros Hord Hlast. rewrite create_word_groups_imap. intros [= <-].
  apply Forall_lookup. intros i s Hs. rewrite list_lookup_imap in Hs.
  destruct (words !! i) as [w|] eqn:Hw; [|done]. injection Hs as <-. simpl.
  destruct (words !! (i + 1)%nat) as [w'|] eqn:Hw'; [by eapply Hord|].
  apply Hlast. rewrite last_lookup.
  apply lookup_ge_None in Hw'. apply lookup_lt_Some in Hw as Hi.
  by replace (pred (length words)) with i by lia.
Qed.

Lemma segments_duration_nonneg_witness :
  Forall (λ s, (Segment.start s <= Segment.end_ s)%Q) example_segments.
Proof.
  apply (segments_duration_nonneg example_words 3 example_segments).
  - intros i w w' Hw Hw'.
    destruct i as [|[|[|i]]]; simpl in Hw, Hw'; simplify_eq; by compute.
  - intros w [= <-]. by compute.
  - reflexivity.
Defined.

(** ** The transcript *)

Section strip.
Import PyStr.

Lemma rstrip_idemp (s : string) : rstrip (rstrip s) = rstrip s.
Proof.
  induction s as [|c s IH]; [done|]. simpl.
  destruct (rstrip s) as [|d r] eqn:E.
  - destruct (is_space c) eqn:Hc; [done|]. simpl. by rewrite Hc.
  - change (rstrip (String c (String d r)))
      with (match rstrip (String d r) with
            | "" => if is_space c then "" else String c ""
            | r' => String c r'
            end).
    by rewrite IH.
Qed.

Lemma lstrip_start (s : string) :
  lstrip s = "" ∨ ∃ c r, lstrip s = String c r ∧ is_space c = false.
Proof.
  induction s as [|c s IH]; [by left|]. simpl.
  destruct (is_space c) eqn:Hc; [done|]. right. by exists c, s.
Qed.

Lemma rstrip_start (c : ascii) (s : string) :
  is_space c = false → ∃ r, rstrip (String c s) = String c r.
Proof.
  intros Hc. simpl. destruct (rstrip s); [|by eexists].
  rewrite Hc. by eexists.
Qed.

(** [strip] does nothing to its own result. *)
Lemma strip_idemp (s : string) : strip (strip s) = strip s.
Proof.
  unfold strip. destruct (lstrip_start s) as [->|(c & r & -> & Hc)]; [done|].
  destruct (rstrip_start c r Hc) as [r' Hr]. rewrite Hr.
  change (lstrip (String c r')) with (if is_space c then lstrip r' else String c r').
  rewrite Hc, <- Hr. apply rstrip_idemp.
Qed.

End strip.

Section transcript.
Import Processor.

Lemma words_loop_app (words : list Whisper.word) (acc : list Word.t) :
  words_loop words acc
  = acc ++ ((λ word, Word.mk (Whisper.word_start word) (Whisper.word_end word)
                       (PyStr.strip (Whisper.word_text word))) <$> words).
Proof.
  revert acc. induction words as [|w ws IH]; intros acc; simpl.
  - by rewrite app_nil_r.
  - rewrite IH. by rewrite <- app_assoc.
Qed.

(** The two loops of [transcribe_audio] flatten the transcription. *)
Lemma segments_loop_flatten (segments : list Whisper.segment) (acc : list Word.t) :
  segments_loop segments acc = acc ++ mjoin (words_of_segment <$> segments).
Proof.
  revert acc. induction segments as [|s segs IH]; intros acc; simpl.
  - by rewrite app_nil_r.
  - unfold words_of_segment at 1.
    destruct (Whisper.words s) as [ws|]; rewrite IH, ?words_loop_app;
      by rewrite <- app_assoc.
Qed.

End transcript.

(** X10. [transcribe_audio] never fails after the transcription, and returns
    as many display segments as the transcription has words: a segment with
    a word list counts for its words (for none when the list is empty,
    whatever its text), a segment without one counts for one. *)
Theorem transcribe_audio_count (result_segments : list Whisper.segment) :
  ∃ segments,
    Processor.transcribe_audio result_segments = Some segments
    ∧ length segments
      = sum_list ((λ segment, match Whisper.words segment with
                              | Some words => length words
                              | None => 1%nat
                              end) <$> result_segments).
Proof.
  unfold Processor.transcribe_audio. cbv zeta.
  destruct (create_word_groups_total (Processor.segments_loop result_segments [])
              VideoProcessor.default_words_per_group) as [segments Hsegs].
  exists segments. split; [done|].
  rewrite (create_word_groups_length _ _ _ Hsegs), segments_loop_flatten. simpl.
  clear Hsegs. induction result_segments as [|s segs IH]; [done|].
  rewrite !fmap_cons. simpl. rewrite length_app, IH. f_equal.
  unfold words_of_segment. destruct (Whisper.words s); [|done].
  by rewrite length_fmap.
Qed.

(** X11. Every word of every display segment that [transcribe_audio]
    returns is stripped: it has no white space at either end. *)
Theorem transcribe_audio_stripped (result_segments : list Whisper.segment)
    (segments : list Segment.t) (s : Segment.t) (ws : list string) :
  Processor.transcribe_audio result_segments = Some segments →
  s ∈ segments →
  Segment.words s = Some ws →
  Forall (λ text, PyStr.strip text = text) ws.
Proof.
  unfold Processor.transcribe_audio. cbv zeta.
  rewrite create_word_groups_imap. intros [= <-] Hs Hws.
  apply list_elem_of_lookup in Hs as [i Hs]. rewrite list_lookup_imap in Hs.
  destruct (_ !! i) as [w|] eqn:Hw; [|done]. injection Hs as <-.
  simpl in Hws. injection Hws as <-.
  apply Forall_fmap, Forall_take, Forall_drop.
  rewrite segments_loop_flatten. simpl.
  apply Forall_forall. intros w' Hw'. simpl.
  apply list_elem_of_join in Hw' as (l & Hin & Hl).
  apply list_elem_of_fmap in Hl as (seg & -> & _).
  unfold words_of_segment in Hin. destruct (Whisper.words seg) as [wl|].
  - apply list_elem_of_fmap in Hin as (x & -> & _). apply strip_idemp.
  - apply list_elem_of_singleton in Hin as ->. apply strip_idemp.
Qed.

Lemma transcribe_audio_stripped_witness :
  Forall (λ text, PyStr.strip text = text) ["hello"; "there"].
Proof.
  apply (transcribe_audio_stripped
           [Whisper.mk_segment 0 1 " hello there"
              (Some [Whisper.mk_word 0 (5 # 10) " hello";
                     Whisper.mk_word (5 # 10) 1 " there"])]
           [Segment.mk 0 (5 # 10) (Some ["hello"; "there"]) 0 "hello" (Some "hello there");
            Segment.mk (5 # 10) 1 (Some ["there"]) 0 "there" (Some "there")]
           (Segment.mk 0 (5 # 10) (Some ["hello"; "there"]) 0 "hello" (Some "hello there"))).
  - reflexivity.
  - apply list_elem_of_here.
  - reflexivity.
Defined.

(** ** The older markup generator *)

Lemma highlighted_loop_styled_loop (i : nat) (words acc : list string) :
  Processor.highlighted_loop i words acc
  = ASSRenderer.styled_loop StylePresets.instagram_classic i words acc.
Proof.
  revert i acc. induction words as [|w ws IH]; intros i acc; [done|].
  simpl. rewrite IH. by destruct i.
Qed.

Lemma highlighted_text_styled_text (segment : Segment.t) :
  Processor.create_highlighted_ass_text segment
  = ASSRenderer._create_styled_text segment StylePresets.instagram_classic.
Proof.
  unfold Processor.create_highlighted_ass_text, ASSRenderer._create_styled_text.
  cbv zeta. by rewrite highlighted_loop_styled_loop.
Qed.

(** X12. The older text builder of the processor is the renderer's at the
    [instagram_classic] preset: for every segment the two give the same
    text, and for a segment with words that text is the first word between
    the two colour switches, then the other words, joined by spaces. *)
Theorem create_highlighted_ass_text_instagram_classic (segment : Segment.t) :
  Processor.create_highlighted_ass_text segment
  = ASSRenderer._create_styled_text segment StylePresets.instagram_classic
  ∧ ∀ word rest, Segment.words segment = Some (word :: rest) →
      Processor.create_highlighted_ass_text segment
      = Py.join " " (("{\c&H00d7ff&}" +:+ word +:+ "{\c&Hffffff&}") :: rest).
Proof.
  split; [apply highlighted_text_styled_text|].
  intros word rest Hw. rewrite highlighted_text_styled_text.
  by rewrite (create_styled_text_words _ _ word rest Hw).
Qed.

Lemma create_highlighted_ass_text_instagram_classic_witness :
  Segment.words (Segment.mk 0 (5 # 10) (Some ["hello"; "there"]) 0 "hello"
                   (Some "hello there"))
  = Some ["hello"; "there"]
  ∧ Processor.create_highlighted_ass_text
      (Segment.mk 0 (5 # 10) (Some ["hello"; "there"]) 0 "hello" (Some "hello there"))
    = "{\c&H00d7ff&}hello{\c&Hffffff&} there".
Proof.
  split; [reflexivity|].
  exact (proj2 (create_highlighted_ass_text_instagram_classic
                  (Segment.mk 0 (5 # 10) (Some ["hello"; "there"]) 0 "hello"
                     (Some "hello there")))
           "hello" ["there"] eq_refl).
Defined.

Lemma int_scaled (z : Z) (p q : positive) :
  Py.int (inject_Z z * (Z.pos p # q)) = Z.quot (z * Z.pos p) (Z.pos q).
Proof. reflexivity. Qed.

Lemma legacy_dialogue_line (segment : Segment.t) :
  Processor.dialogue_line segment
  = ASSRenderer.dialogue_line StylePresets.instagram_classic segment.
Proof.
  unfold Processor.dialogue_line, ASSRenderer.dialogue_line. cbv zeta.
  by rewrite highlighted_text_styled_text.
Qed.

Lemma legacy_default_style_line (fs mb : Z) :
  "Style: Default,Arial," +:+ Py.str fs
    +:+ ",&Hffffff,&Hffffff,&H000000,&H80000000,1,0,0,0,100,100,0,0,1,2,0,2,20,20,"
    +:+ Py.str mb +:+ ",1"
  = ASSRenderer.default_style_line fs 20 mb StylePresets.instagram_classic.
Proof. reflexivity. Qed.

Lemma legacy_highlight_style_line (fs mb : Z) :
  "Style: Highlight,Arial," +:+ Py.str fs
    +:+ ",&H00d7ff,&H00d7ff,&H000000,&H80000000,1,0,0,0,100,100,0,0,1,2,0,2,20,20,"
    +:+ Py.str mb +:+ ",1"
  = ASSRenderer.highlight_style_line fs 20 mb StylePresets.instagram_classic.
Proof. reflexivity. Qed.

(** X13. For a video at least 400 lines high, the older generator and the
    renderer at the [instagram_classic] preset write the same markup but for
    the title line. *)
Theorem generate_ass_content_instagram_classic (segments : list Segment.t)
    (width height : Z) :
  400 ≤ height →
  ∃ rest,
    Processor.generate_ass_content segments width height
    = "[Script Info]" +:+ Py.NL
      +:+ "Title: Subtitle Ninja - Instagram Classic" +:+ Py.NL +:+ rest
    ∧ ASSRenderer._generate_ass_content segments width height
        StylePresets.instagram_classic
      = "[Script Info]" +:+ Py.NL
        +:+ "Title: Subtitle Ninja - Arial" +:+ Py.NL +:+ rest.
Proof.
  intros Hh.
  unfold Processor.generate_ass_content, ASSRenderer._generate_ass_content,
    ASSRenderer._generate_header. cbv zeta.
  rewrite (map_ext _ _ legacy_dialogue_line).
  change (font_size_ratio StylePresets.instagram_classic) with (5 # 100)%Q.
  change (margin_ratio StylePresets.instagram_classic) with (8 # 100)%Q.
  rewrite !int_scaled.
  assert (20 ≤ Z.quot (height * 5) 100) as Hfs.
  { apply Z.quot_le_lower_bound; lia. }
  assert (30 ≤ Z.quot (height * 8) 100) as Hmb.
  { apply Z.quot_le_lower_bound; lia. }
  rewrite !(Z.max_l _ 16), !(Z.max_l _ 20), !(Z.max_l _ 30) by lia.
  rewrite legacy_default_style_line, legacy_highlight_style_line.
  eexists. rewrite !string_app_assoc. split; reflexivity.
Qed.

Lemma generate_ass_content_instagram_classic_witness :
  400 ≤ 1080
  ∧ ∃ rest,
      Processor.generate_ass_content example_segments 1920 1080
      = "[Script Info]" +:+ Py.NL
        +:+ "Title: Subtitle Ninja - Instagram Classic" +:+ Py.NL +:+ rest
      ∧ ASSRenderer._generate_ass_content example_segments 1920 1080
          StylePresets.instagram_classic
        = "[Script Info]" +:+ Py.NL
          +:+ "Title: Subtitle Ninja - Arial" +:+ Py.NL +:+ rest.
Proof.
  split; [lia|].
  apply (generate_ass_content_instagram_classic example_segments 1920 1080). lia.
Defined.
(** ** What the viewer reads *)

Lemma visible_from_false_app (w rest : string) :
  no_brace w = true →
  visible_from false (w +:+ rest) = w +:+ visible_from false rest.
Proof.
  induction w as [|c w IH]; [done|]. intros H. simpl in H.
  apply andb_prop in H as [H Hw]. apply andb_prop in H as [Ho _].
  apply negb_true_iff in Ho. rewrite !app_String. simpl. rewrite Ho.
  by rewrite IH.
Qed.

Lemma visible_from_true_app (x rest : string) :
  no_brace x = true →
  visible_from true (x +:+ rest) = visible_from true rest.
Proof.
  induction x as [|c x IH]; [done|]. intros H. simpl in H.
  apply andb_prop in H as [H Hx]. apply andb_prop in H as [_ Hc].
  rewrite app_String. simpl. rewrite Hc. by apply IH.
Qed.

Lemma visible_no_brace (w : string) : no_brace w = true → visible_text w = w.
Proof.
  intros H. unfold visible_text. rewrite <- (app_empty_r w) at 1.
  rewrite visible_from_false_app by done. apply app_empty_r.
Qed.

Lemma no_brace_app (s t : string) : no_brace (s +:+ t) = no_brace s && no_brace t.
Proof.
  induction s as [|c s IH]; [done|].
  rewrite app_String. simpl. by rewrite IH, !andb_assoc.
Qed.

Lemma no_brace_string_of_uint (d : Decimal.uint) :
  no_brace (NilEmpty.string_of_uint d) = true.
Proof. induction d; simpl; done. Qed.

Lemma no_brace_str (z : Z) : no_brace (Py.str z) = true.
Proof.
  unfold Py.str, NilZero.string_of_int, NilZero.string_of_uint.
  destruct (Z.to_int z) as [d|d]; destruct d; simpl; try done;
    apply no_brace_string_of_uint.
Qed.

Lemma no_brace_join_space (ls : list string) :
  forallb no_brace ls = true → no_brace (Py.join " " ls) = true.
Proof.
  induction ls as [|l ls IH]; [done|]. intros H.
  simpl in H. apply andb_prop in H as [Hl Hls].
  destruct ls as [|l' ls]; [done|].
  change (Py.join " " (l :: l' :: ls)) with (l +:+ " " +:+ Py.join " " (l' :: ls)).
  rewrite !no_brace_app, Hl, IH; done.
Qed.

Section visible.
Import ASSRenderer.

Variable style : StyleConfig.
Hypothesis base_ok : no_brace (base_color style) = true.
Hypothesis highlight_ok : no_brace (highlight_color style) = true.
Hypothesis outline_ok : no_brace (outline_color style) = true.

(** Reading through one piece of markup: literal characters are read one
    by one, the strings of the style and the numbers are skipped. *)
Ltac read_markup :=
  repeat first
    [ progress (rewrite ?app_String, ?app_empty; simpl visible_from)
    | rewrite visible_from_true_app by (done || apply no_brace_str)
    | rewrite visible_from_false_app by done ].

Lemma visible_color_change_markup (word tail : string) :
  no_brace word = true →
  visible_from false (color_change_markup style word +:+ tail)
  = word +:+ visible_from false tail.
Proof.
  intros Hw. unfold color_change_markup. rewrite !string_app_assoc.
  by read_markup.
Qed.

Lemma visible_highlight_first (word tail : string) :
  no_brace word = true →
  visible_from false (highlight_first style word +:+ tail)
  = word +:+ visible_from false tail.
Proof.
  intros Hw. unfold highlight_first. cbv zeta.
  repeat case_match; try apply visible_color_change_markup; try done;
    rewrite !string_app_assoc; by read_markup.
Qed.

End visible.

(** X14. The markup shows the words as they are: for a style whose colours
    have no braces and a segment whose words have none, the text a player
    shows for the styled text is the words joined by single spaces. *)
Theorem styled_text_visible (segment : Segment.t) (style : StyleConfig)
    (words : list string) :
  Segment.words segment = Some words →
  words ≠ [] →
  no_brace (base_color style) = true →
  no_brace (highlight_color style) = true →
  no_brace (outline_color style) = true →
  forallb no_brace words = true →
  visible_text (ASSRenderer._create_styled_text segment style)
  = Py.join " " words.
Proof.
  intros Hwords Hne Hb Hh Ho Hall.
  destruct words as [|word rest]; [done|]. simpl in Hall.
  apply andb_prop in Hall as [Hw Hrest].
  rewrite (create_styled_text_words style segment word rest Hwords).
  rewrite !join_cons. unfold visible_text.
  rewrite visible_highlight_first by done. f_equal.
  apply visible_no_brace. destruct rest as [|w' rest']; [done|].
  rewrite no_brace_app. by rewrite no_brace_join_space.
Qed.

Lemma styled_text_visible_witness :
  visible_text
    (ASSRenderer._create_styled_text
       (Segment.mk 0 (5 # 10) (Some ["hello"; "there"]) 0 "hello" (Some "hello there"))
       StylePresets.tiktok_viral)
  = "hello there".
Proof.
  apply (styled_text_visible
           (Segment.mk 0 (5 # 10) (Some ["hello"; "there"]) 0 "hello"
              (Some "hello there"))
           StylePresets.tiktok_viral ["hello"; "there"]); done.
Defined.
